(** * ActionID demo application: server-side acceptance policy and
      client-side liveness heuristic

    A shallow embedding of
      - the account model, class [User]       (src/unnamed/part_000),
      - the auth controller                   (src/unnamed/part_003),
      - the routes                            (src/unnamed/part_001),
      - the schema of the [users] table       (src/backend/src/db/schema.sql),
      - the liveness sampling loop of the login page,
        [handleBiometricVerification]         (src/frontend/src/pages/Enroll.tsx,
                                               lines 315-574),
    followed by the properties the specification states about them.

    Conventions.
      - JavaScript strings are [string]; numbers that the code only uses
        as small integers are [Z].
      - A value that may be [undefined] is an [option]; the truthiness
        tests of the source ([!csid], [!videoValidated], ...) are written
        out as boolean functions.
      - Library primitives whose code is not part of the repository
        ([String.prototype.toLowerCase], [bcrypt.hash], [bcrypt.compare],
        [jwt.sign]) are [Variable]s of a [Section]: every theorem holds
        for all of them.
      - [console.log] has no effect on any modelled state and is left out.
      - The database is up: [pool.query] throws where PostgreSQL refuses
        the statement, on a text parameter that contains U+0000 or on a
        violated constraint, and nowhere else. *)

From Stdlib Require Import ZArith List String Ascii Bool Lia QArith.
Import ListNotations.
Local Open Scope string_scope.
Local Open Scope Z_scope.

Set Implicit Arguments.

(* ===================================================================== *)
(** * JavaScript values *)
(* ===================================================================== *)

Module JS.

(** [!!s] for a value of type [string | undefined]: the empty string and
    [undefined] are falsy. *)
Definition truthy_string (s : option string) : bool :=
  match s with
  | None => false
  | Some s => negb (String.eqb s "")
  end.

(** [!!b] for a value of type [boolean | undefined]. *)
Definition truthy_bool (b : option bool) : bool :=
  match b with
  | None => false
  | Some b => b
  end.

(** [!!n] for a value of type [number | undefined] holding an integer. *)
Definition truthy_number (n : option Z) : bool :=
  match n with
  | None => false
  | Some n => negb (n =? 0)
  end.

(** [String(v)], the coercion [RegExp.prototype.test] applies to its
    argument. *)
Definition to_string (s : option string) : string :=
  match s with
  | None => "undefined"
  | Some s => s
  end.

(** [n > k] for [number | undefined]: a comparison with [undefined]
    is false. *)
Definition gt (n : option Z) (k : Z) : bool :=
  match n with
  | None => false
  | Some n => k <? n
  end.

End JS.

(* ===================================================================== *)
(** * The UUID shape test of [verifyBiometric]

    [/^[0-9a-f]{8}-[0-9a-f]{4}-[0-9a-f]{4}-[0-9a-f]{4}-[0-9a-f]{12}$/i] *)
(* ===================================================================== *)

Module Regex.

Definition in_range (lo hi c : ascii) : bool :=
  ((nat_of_ascii lo <=? nat_of_ascii c)%nat
   && (nat_of_ascii c <=? nat_of_ascii hi)%nat)%bool.

(** [[0-9a-f]] under the [i] flag. *)
Definition is_hex (c : ascii) : bool :=
  in_range "0" "9" c || in_range "a" "f" c || in_range "A" "F" c.

(** [[0-9a-f]{n}]: consume exactly [n] hexadecimal digits. *)
Fixpoint hexes (n : nat) (s : string) : option string :=
  match n with
  | O => Some s
  | S n' =>
      match s with
      | String c rest => if is_hex c then hexes n' rest else None
      | EmptyString => None
      end
  end.

(** The literal [-]. *)
Definition dash (s : string) : option string :=
  match s with
  | String "-" rest => Some rest
  | _ => None
  end.

Definition andThen (o : option string) (f : string -> option string) :=
  match o with
  | Some s => f s
  | None => None
  end.

(** [uuidRegex.test(s)]: the pattern is anchored at both ends. *)
Definition uuidRegex_test (s : string) : bool :=
  match
    andThen (andThen (andThen (andThen (andThen (andThen (andThen (andThen
      (hexes 8 s) dash) (hexes 4)) dash) (hexes 4)) dash) (hexes 4)) dash)
      (hexes 12)
  with
  | Some EmptyString => true
  | _ => false
  end.

End Regex.

(* ===================================================================== *)
(** * The [users] table (src/backend/src/db/schema.sql)

    Identifiers are the UUIDs the table generates; they are kept as
    strings. *)
(* ===================================================================== *)

Record Row := {
  row_id : string;             (* UUID PRIMARY KEY DEFAULT gen_random_uuid() *)
  row_email : string;          (* VARCHAR(255) UNIQUE NOT NULL *)
  row_password_hash : string;  (* VARCHAR(255) NOT NULL *)
  row_enrolled : bool;         (* BOOLEAN DEFAULT FALSE *)
  row_created_at : Z;          (* TIMESTAMP DEFAULT CURRENT_TIMESTAMP *)
  row_updated_at : Z           (* TIMESTAMP DEFAULT CURRENT_TIMESTAMP *)
}.

Definition Table := list Row.

(** What the environment chooses while one request is served: the value
    of [gen_random_uuid()], of [CURRENT_TIMESTAMP], and the salt drawn by
    [bcrypt.hash]. *)
Record Env := {
  fresh_id : string;
  now : Z;
  salt : string
}.

(* ===================================================================== *)
(** * HTTP responses *)
(* ===================================================================== *)

Record PublicUser := {
  pu_id : string;
  pu_email : string;
  pu_enrolled : bool
}.

Inductive Json :=
| ErrorJson (error : string)
| AuthJson (message : string) (user : PublicUser) (token : string)
| VerifyJson (verified : bool) (message : string)
| VerifyFailedJson (verified : bool) (error : string) (message : string)
| EnrollJson (enrolled : bool) (message : string)
| ProfileJson (user : PublicUser).

Record Response := {
  status : Z;
  json : Json
}.

(* ===================================================================== *)
(** * Handler monad

    A handler runs against the table and the response object. A
    statement either yields a value, executes [return], or throws. The
    table and the response keep the effects made before a throw. *)
(* ===================================================================== *)

Record World := {
  users : Table;
  sent : option Response
}.

Inductive outcome (A : Type) :=
| Val (a : A)
| Returned
| Thrown.
Arguments Returned {A}.
Arguments Thrown {A}.

Definition H (A : Type) := World -> World * outcome A.

Definition ret {A} (a : A) : H A := fun w => (w, Val a).

Definition bind {A B} (c : H A) (k : A -> H B) : H B :=
  fun w =>
    match c w with
    | (w', Val a) => k a w'
    | (w', Returned) => (w', Returned)
    | (w', Thrown) => (w', Thrown)
    end.

Declare Scope handler_scope.
Delimit Scope handler_scope with handler.
Notation "x <- c ;; k" := (bind c (fun x => k))
  (at level 61, c at next level, right associativity) : handler_scope.
Notation "c ;; k" := (bind c (fun _ => k))
  (at level 61, right associativity) : handler_scope.
Local Open Scope handler_scope.

(** [return;] *)
Definition return_ : H unit := fun w => (w, Returned).

(** [throw] *)
Definition throw {A} : H A := fun w => (w, Thrown).

(** [try { body } catch (error) { handler }] *)
Definition try_catch (body handler : H unit) : H unit :=
  fun w =>
    match body w with
    | (w', Thrown) => handler w'
    | r => r
    end.

(** [if (c) { h }] *)
Definition when (c : bool) (h : H unit) : H unit :=
  if c then h else ret tt.

(** [res.status(code).json(body)]. Express throws when a response has
    already been sent. *)
Definition send (code : Z) (body : Json) : H unit :=
  fun w =>
    match sent w with
    | None => ({| users := users w;
                  sent := Some {| status := code; json := body |} |}, Val tt)
    | Some _ => (w, Thrown)
    end.

(** [res.json(body)]: the status defaults to 200. *)
Definition send_json (body : Json) : H unit := send 200 body.

(** Serve one request on a table: the table afterwards and the response. *)
Definition serve (h : H unit) (db : Table) : Table * option Response :=
  let (w, _) := h {| users := db; sent := None |} in (users w, sent w).

(* ===================================================================== *)
(** * Queries on the [users] table, as [pool.query] runs them *)
(* ===================================================================== *)

Module Sql.

(** The row [INSERT INTO users (email, password_hash, enrolled)
    VALUES ($1, $2, $3)] builds: the other columns take their defaults. *)
Definition new_row (e : Env) (email hash : string) (enrolled : bool) : Row :=
  {| row_id := fresh_id e;
     row_email := email;
     row_password_hash := hash;
     row_enrolled := enrolled;
     row_created_at := now e;
     row_updated_at := now e |}.

(** PostgreSQL holds no text with the character U+0000 in it: a query
    that is given such a text as a parameter fails, and [pool.query]
    throws. *)
Fixpoint hasNul (s : string) : bool :=
  match s with
  | EmptyString => false
  | String c rest => Ascii.eqb c Ascii.zero || hasNul rest
  end.

(** A text that a [VARCHAR(255)] column stores as it is given. A longer
    text is an error, unless all that exceeds the column is spaces:
    PostgreSQL then stores the first 255 characters. The insertion
    below refuses every longer text, and is the database's on the texts
    that fit: what is stated of the row an insertion stores is stated
    for those. *)
Definition fits (s : string) : bool :=
  Z.of_nat (String.length s) <=? 255.


(** A row violates a constraint of the schema: the primary key, the
    uniqueness of [email], or the length of a [VARCHAR(255)] column. *)
Definition violates (db : Table) (row : Row) : bool :=
  existsb (fun r => String.eqb (row_id r) (row_id row)) db
  || existsb (fun r => String.eqb (row_email r) (row_email row)) db
  || (255 <? Z.of_nat (String.length (row_email row)))
  || (255 <? Z.of_nat (String.length (row_password_hash row))).

(** The insertion of a row fails: a text of the row contains U+0000, or
    the row violates a constraint. *)
Definition refused (db : Table) (row : Row) : bool :=
  hasNul (row_email row) || hasNul (row_password_hash row) || violates db row.

(** [INSERT INTO users (email, password_hash, enrolled)
     VALUES ($1, $2, $3) RETURNING *].
    The statement fails, and [pool.query] throws, when a parameter
    contains U+0000 or the row violates a constraint. *)
Definition insert_user (e : Env) (email hash : string) (enrolled : bool)
  : H (list Row) :=
  fun w =>
    let row := new_row e email hash enrolled in
    if refused (users w) row then (w, Thrown)
    else ({| users := (users w ++ [row])%list; sent := sent w |}, Val [row]).

(** [SELECT * FROM users WHERE email = $1]. The query fails, and
    [pool.query] throws, when the parameter contains U+0000. No stored
    email contains it, so that a parameter equal to a stored email is
    never one the database refuses. *)
Definition select_by_email (email : string) : H (list Row) :=
  fun w =>
    match filter (fun r => String.eqb (row_email r) email) (users w) with
    | [] => if hasNul email then (w, Thrown) else (w, Val [])
    | rows => (w, Val rows)
    end.

(** [SELECT * FROM users WHERE id = $1]. Ids are compared in the form
    the table generates them in. *)
Definition select_by_id (id : string) : H (list Row) :=
  fun w => (w, Val (filter (fun r => String.eqb (row_id r) id) (users w))).

(** One row under [SET enrolled = $1, updated_at = CURRENT_TIMESTAMP]. *)
Definition set_enrolled (e : Env) (enrolled : bool) (r : Row) : Row :=
  {| row_id := row_id r;
     row_email := row_email r;
     row_password_hash := row_password_hash r;
     row_enrolled := enrolled;
     row_created_at := row_created_at r;
     row_updated_at := now e |}.

(** The table after [UPDATE users SET enrolled = $1,
    updated_at = CURRENT_TIMESTAMP WHERE id = $2]. *)
Definition updated (e : Env) (enrolled : bool) (id : string) (db : Table) : Table :=
  map (fun r => if String.eqb (row_id r) id then set_enrolled e enrolled r else r) db.

(** [UPDATE users SET enrolled = $1, updated_at = CURRENT_TIMESTAMP
     WHERE id = $2 RETURNING *] *)
Definition update_enrolled (e : Env) (enrolled : bool) (id : string)
  : H (list Row) :=
  fun w =>
    ({| users := updated e enrolled id (users w); sent := sent w |},
     Val (map (set_enrolled e enrolled)
              (filter (fun r => String.eqb (row_id r) id) (users w)))).

End Sql.

(* ===================================================================== *)
(** * The account model, class [User] (src/unnamed/part_000) *)
(* ===================================================================== *)

Record UserData := {
  id : string;
  email : string;
  passwordHash : string;
  enrolled : bool;
  createdAt : Z
}.

Module User.

(** [new User({ id: row.id, email: row.email, ... })] *)
Definition of_row (row : Row) : UserData :=
  {| id := row_id row;
     email := row_email row;
     passwordHash := row_password_hash row;
     enrolled := row_enrolled row;
     createdAt := row_created_at row |}.

(** [const row = result.rows[0]; return new User(...)]: reading a field
    of [undefined] throws. *)
Definition first_row (rows : list Row) : H UserData :=
  match rows with
  | [] => throw
  | row :: _ => ret (of_row row)
  end.

(** [if (result.rows.length === 0) return null; ... rows[0] ...] *)
Definition first_row_or_null (rows : list Row) : H (option UserData) :=
  match rows with
  | [] => ret None
  | row :: _ => ret (Some (of_row row))
  end.

Section WithLowerCase.

Variable toLowerCase : string -> string.

Definition create (e : Env) (email passwordHash : string) : H UserData :=
  rows <- Sql.insert_user e (toLowerCase email) passwordHash false ;;
  first_row rows.

Definition findByEmail (email : string) : H (option UserData) :=
  rows <- Sql.select_by_email (toLowerCase email) ;;
  first_row_or_null rows.

End WithLowerCase.

Definition findById (id : string) : H (option UserData) :=
  rows <- Sql.select_by_id id ;;
  first_row_or_null rows.

Definition markEnrolled (e : Env) (userId : string) : H (option UserData) :=
  rows <- Sql.update_enrolled e true userId ;;
  first_row_or_null rows.

End User.

(* ===================================================================== *)
(** * Requests (the types at the end of src/unnamed/part_003) *)
(* ===================================================================== *)

Record RegisterRequest := {
  reg_email : option string;
  reg_password : option string
}.

Record LoginRequest := {
  login_email : option string;
  login_password : option string
}.

Record BiometricVerifyRequest := {
  csid : option string;
  actionID : option string;
  videoValidated : option bool
}.

Record EnrollCompleteRequest := {
  enroll_csid : option string
}.

(** [AuthRequest<B>]: the body, and the account the authentication
    middleware attached as [req.user], if any. *)
Record AuthRequest (B : Type) := {
  body : B;
  user : option UserData
}.

(** [req.user!]: the assertion is erased by the compiler, so a field
    access on an absent [req.user] throws. *)
Definition req_user {B} (req : AuthRequest B) : H UserData :=
  match user req with
  | Some u => ret u
  | None => throw
  end.

Definition public (u : UserData) : PublicUser :=
  {| pu_id := id u; pu_email := email u; pu_enrolled := enrolled u |}.


(* ===================================================================== *)
(** * The verification policy in the words of the specification

    "Decision rule, evaluated in order, first failing condition wins":
    missing session, liveness flag false, session identifier not UUID
    shaped, account not enrolled, otherwise accept. *)
(* ===================================================================== *)

Module Policy.

Inductive Decision :=
| MissingSession
| VideoValidationRequired
| InvalidSessionFormat
| MustEnrollFirst
| Accept.

Definition decide (present live shaped enrolled : bool) : Decision :=
  if negb present then MissingSession
  else if negb live then VideoValidationRequired
  else if negb shaped then InvalidSessionFormat
  else if negb enrolled then MustEnrollFirst
  else Accept.

(** The response that reports a decision. *)
Definition response (d : Decision) : Response :=
  match d with
  | MissingSession =>
      {| status := 400; json := ErrorJson "CSID is required" |}
  | VideoValidationRequired =>
      {| status := 400;
         json := ErrorJson
           "Video stream validation required. Camera must be active and capturing." |}
  | InvalidSessionFormat =>
      {| status := 400; json := ErrorJson "Invalid CSID format" |}
  | MustEnrollFirst =>
      {| status := 400;
         json := ErrorJson
           "User must complete enrollment before biometric verification" |}
  | Accept =>
      {| status := 200;
         json := VerifyJson true "Biometric verification successful" |}
  end.

End Policy.

(* ===================================================================== *)
(** * The liveness heuristic of the login page
      (src/frontend/src/pages/Enroll.tsx, [handleBiometricVerification],
      lines 315-574)

    The interval callback runs to completion once every 500 ms. What it
    reads of the page on one run is a [Snapshot]; the two counters the
    callback closes over are the loop state. *)
(* ===================================================================== *)

Module Login.

(** A [MediaStreamTrack] of kind video, as far as the callback reads it. *)
Record Track := {
  live : bool;                    (* track.readyState === 'live' *)
  muted : bool;
  track_enabled : bool;           (* track.enabled *)
  settings_width : option Z;      (* track.getSettings().width *)
  settings_height : option Z;     (* track.getSettings().height *)
  getCapabilities_throws : bool   (* track.getCapabilities() is missing or throws *)
}.

Record MediaStream := {
  active : bool;
  getVideoTracks : list Track
}.

(** What rendering the current frame on an offscreen canvas gives. *)
Inductive Canvas :=
| NoContext                     (* canvas.getContext('2d') is null *)
| CanvasThrows                  (* drawImage or getImageData throws *)
| ImageData (data : list Z).    (* ctx.getImageData(..).data, RGBA bytes *)

Record VideoElement := {
  paused : bool;
  ended : bool;
  readyState : Z;
  srcObject : option MediaStream;
  videoWidth : Z;
  videoHeight : Z;
  canvas : Canvas
}.

(** [cameraContainerRef.current] and the result of
    [container.querySelector('video')]. *)
Record Container := {
  video : option VideoElement
}.

Definition Snapshot := option Container.

(** The four signals of one sample. *)
Record Signals := {
  hasVideo : bool;
  isPlaying : bool;
  hasActiveStream : bool;
  hasVideoTracks : bool
}.

(** The inspection of the first live track, lines 389-408. *)
Definition inspectTrack (v : VideoElement) (track : Track) : bool :=
  let hasVideoTracks := negb (muted track) && track_enabled track in
  if getCapabilities_throws track then false       (* catch (e) *)
  else
    let hasVideoTracks :=
      if JS.truthy_number (settings_width track)
         && JS.truthy_number (settings_height track)
      then JS.gt (settings_width track) 0 && JS.gt (settings_height track) 0
      else hasVideoTracks in
    if hasVideoTracks
       && negb (videoWidth v =? 0) && negb (videoHeight v =? 0)
    then (0 <? videoWidth v) && (0 <? videoHeight v)
    else hasVideoTracks.

Definition signals (c : Container) : Signals :=
  match video c with
  | None =>
      {| hasVideo := false; isPlaying := false;
         hasActiveStream := false; hasVideoTracks := false |}
  | Some v =>
      let playing := negb (paused v) && negb (ended v) && (2 <=? readyState v) in
      match srcObject v with
      | None =>
          {| hasVideo := true; isPlaying := playing;
             hasActiveStream := false; hasVideoTracks := false |}
      | Some stream =>
          let liveTracks := filter live (getVideoTracks stream) in
          {| hasVideo := true; isPlaying := playing;
             hasActiveStream := active stream;
             hasVideoTracks :=
               match liveTracks with
               | [] => false
               | track :: _ => inspectTrack v track
               end |}
      end
  end.

Definition isValidCapture (s : Signals) : bool :=
  hasVideo s && isPlaying s && hasActiveStream s && hasVideoTracks s.

(** ** The content check, lines 477-515 *)

(** [data[i]]: [undefined] outside the array. *)
Definition item (data : list Z) (i : Z) : option Z :=
  if i <? 0 then None else nth_error data (Z.to_nat i).

(** [r > 30 || g > 30 || b > 30] for the pixel stored at index [i]. *)
Definition nonBlackAt (data : list Z) (i : Z) : bool :=
  JS.gt (item data i) 30 || JS.gt (item data (i + 1)) 30
  || JS.gt (item data (i + 2)) 30.

(** The values [i] takes in [for (let i = 0; i < sampleSize; i += 4)]. *)
Definition loopIndices (sampleSize : Z) : list Z :=
  map (fun k => 4 * Z.of_nat k) (seq 0 (Z.to_nat ((sampleSize + 3) / 4))).

Definition sampleSize (data : list Z) : Z :=
  Z.min (Z.of_nat (List.length data)) 10000.

Definition nonBlackPixels (data : list Z) : Z :=
  fold_left (fun n i => if nonBlackAt data i then n + 1 else n)
            (loopIndices (sampleSize data)) 0.

(** [nonBlackPixels / (sampleSize / 4)]. The quotient is taken in the
    rationals: both operands are integers below 2^14, so a double
    compares with the literal [0.05] as the exact quotient does. *)
Definition nonBlackRatio (data : list Z) : Q :=
  (inject_Z (nonBlackPixels data) / (inject_Z (sampleSize data) / 4))%Q.

(** [nonBlackRatio < 0.05]. With an empty array the ratio is [0 / 0],
    a NaN, and the comparison is false. *)
Definition looksCovered (data : list Z) : bool :=
  if sampleSize data =? 0 then false
  else match (nonBlackRatio data ?= 5 # 100)%Q with
       | Lt => true
       | _ => false
       end.

(** ** The final validation, lines 447-523 *)

Inductive Verdict :=
| Rejected (error : string)   (* setError(error); stop(); return *)
| Validated.                  (* goes on to submit the session identifier *)

(** [ctx] is not null. *)
Definition contextAvailable (c : Canvas) : bool :=
  match c with
  | NoContext => false
  | _ => true
  end.

(** The [try] block of lines 465-523: a throw inside it is caught and
    reported as 'Unable to validate camera stream'. *)
Definition validateContent (v : VideoElement) : Verdict :=
  match srcObject v with
  | None => Validated
  | Some stream =>
      match find live (getVideoTracks stream) with
      | None => Rejected "Camera track is not active. Please ensure camera is uncovered and try again."
      | Some liveTrack =>
          if muted liveTrack || negb (track_enabled liveTrack)
          then Rejected "Camera track is not active. Please ensure camera is uncovered and try again."
          else
            if contextAvailable (canvas v)
               && (0 <? videoWidth v) && (0 <? videoHeight v)
            then
              match canvas v with
              | ImageData data =>
                  if looksCovered data
                  then Rejected "Camera appears to be covered or not capturing properly. Please ensure camera is uncovered and your face is visible, then try again."
                  else Validated
              | _ => Rejected "Unable to validate camera stream. Please try again."
              end
            else Validated
      end
  end.

Definition finalValidation (s : Signals) (c : Container) : Verdict :=
  if negb (hasVideo s) || negb (isPlaying s)
     || negb (hasActiveStream s) || negb (hasVideoTracks s)
  then Rejected "Camera stopped capturing. Please try again."
  else
    match video c with
    | None => Rejected "Unable to validate camera stream. Please try again."
    | Some v =>
        if (videoWidth v =? 0) || (videoHeight v =? 0)
        then Rejected "Camera is not producing video. Please ensure camera is uncovered and try again."
        else validateContent v
    end.

(** ** The sampling loop, lines 349-445 *)

Definition maxAttempts : Z := 30.
Definition requiredValidCaptures : Z := 20.

Record Counters := {
  captureAttempts : Z;
  validCaptureCount : Z
}.

Definition start : Counters :=
  {| captureAttempts := 0; validCaptureCount := 0 |}.

(** One run of the interval callback. *)
Inductive Tick :=
| KeepSampling (c : Counters)     (* the interval stays armed *)
| ContainerLost                   (* 'Camera container lost. Please try again.' *)
| BudgetExhausted                 (* 'Camera is not capturing video properly. ...' *)
| StreakReached (v : Verdict).    (* validCaptureCount >= requiredValidCaptures *)

Definition tick (st : Counters) (snap : Snapshot) : Tick :=
  let captureAttempts := captureAttempts st + 1 in
  match snap with
  | None => ContainerLost
  | Some container =>
      let s := signals container in
      let validCaptureCount :=
        if isValidCapture s then validCaptureCount st + 1 else 0 in
      if (maxAttempts <=? captureAttempts)
         && (validCaptureCount <? requiredValidCaptures)
      then BudgetExhausted
      else
        let validCaptureCount :=
          if (0 <? validCaptureCount) && negb (isValidCapture s)
          then 0 else validCaptureCount in
        if requiredValidCaptures <=? validCaptureCount
        then StreakReached (finalValidation s container)
        else KeepSampling {| captureAttempts := captureAttempts;
                             validCaptureCount := validCaptureCount |}
  end.

(** The loop on the successive snapshots of the page: [None] while the
    interval is still armed after the last of them. *)
Fixpoint sample (st : Counters) (snaps : list Snapshot) : option Tick :=
  match snaps with
  | [] => None
  | snap :: rest =>
      match tick st snap with
      | KeepSampling st' => sample st' rest
      | stop => Some stop
      end
  end.

(** A sample counts as valid when the container is there and the four
    signals hold. *)
Definition validSample (snap : Snapshot) : bool :=
  match snap with
  | None => false
  | Some c => isValidCapture (signals c)
  end.

Definition containerPresent (snap : Snapshot) : bool :=
  match snap with
  | None => false
  | Some _ => true
  end.

Definition validCapture (c : Container) : Prop :=
  isValidCapture (signals c) = true.

Definition passesStreak (t : option Tick) : bool :=
  match t with
  | Some (StreakReached _) => true
  | _ => false
  end.

(** ** The frame as a list of pixels *)

(** The RGBA quadruples of [data]. *)
Fixpoint pixels (data : list Z) : list (Z * Z * Z * Z) :=
  match data with
  | r :: g :: b :: a :: rest => (r, g, b, a) :: pixels rest
  | _ => []
  end.

(** A pixel at or below brightness 30 on the three colour channels. *)
Definition dark (p : Z * Z * Z * Z) : bool :=
  let '(r, g, b, _) := p in (r <=? 30) && (g <=? 30) && (b <=? 30).

(** The pixels the content check looks at: the first 2500. *)
Definition sampledPixels (data : list Z) : list (Z * Z * Z * Z) :=
  firstn 2500 (pixels data).

Definition countDark (ps : list (Z * Z * Z * Z)) : Z :=
  Z.of_nat (List.length (filter dark ps)).

Definition countBright (ps : list (Z * Z * Z * Z)) : Z :=
  Z.of_nat (List.length (filter (fun p => negb (dark p)) ps)).

End Login.


(* ===================================================================== *)
(** * Observations on the table *)
(* ===================================================================== *)

(** The enrolled flag of the account [User.findById] resolves for an
    identifier, if there is one. *)
Definition enrolledOf (db : Table) (userId : string) : option bool :=
  match User.findById userId {| users := db; sent := None |} with
  | (_, Val (Some u)) => Some (enrolled u)
  | _ => None
  end.

(** The account stored under an identifier exists. *)
Definition stored (db : Table) (userId : string) : bool :=
  existsb (fun r => String.eqb (row_id r) userId) db.

(** The answer of a completed enrollment. *)
Definition enrollmentCompleted : Response :=
  {| status := 200;
     json := EnrollJson true "Biometric enrollment completed successfully" |}.

(** Every stored email is in the form [User.create] stores it in. *)
Definition lowercased (toLowerCase : string -> string) (db : Table) : Prop :=
  Forall (fun r => toLowerCase (row_email r) = row_email r) db.


(** The account [User.findByEmail] resolves for an email, if any. *)
Definition accountOf (toLowerCase : string -> string) (db : Table)
    (email : string) : option UserData :=
  match User.findByEmail toLowerCase email {| users := db; sent := None |} with
  | (_, Val found) => found
  | _ => None
  end.

(** The answer to a login that is refused. *)
Definition invalidCredentials : Response :=
  {| status := 401; json := ErrorJson "Invalid credentials" |}.

(** The answer to a request that lacks a field. *)
Definition fieldsRequired : Response :=
  {| status := 400; json := ErrorJson "Email and password are required" |}.

(** The answer to a registration under an email already taken. *)
Definition userAlreadyExists : Response :=
  {| status := 400; json := ErrorJson "User already exists" |}.

(** The answer of a handler whose [catch] block ran. *)
Definition internalError : Response :=
  {| status := 500; json := ErrorJson "Internal server error" |}.


(* ===================================================================== *)
(** * Concrete data for the examples *)
(* ===================================================================== *)

Module Sample.

(** Lower-casing of the ASCII letters. *)
Definition lowerAscii (c : ascii) : ascii :=
  if Regex.in_range "A" "Z" c
  then ascii_of_nat (nat_of_ascii c + 32)
  else c.

Fixpoint toLowerCase (s : string) : string :=
  match s with
  | EmptyString => EmptyString
  | String c rest => String (lowerAscii c) (toLowerCase rest)
  end.

(** Stand-ins for the bcrypt and JWT primitives. *)
Definition bcrypt_hash (password : string) (rounds : Z) (salt : string) : string :=
  "$2a$" ++ salt ++ "$" ++ password.

Fixpoint endsWith (suffix s : string) : bool :=
  String.eqb s suffix
  || match s with
     | String _ rest => endsWith suffix rest
     | EmptyString => false
     end.

Definition bcrypt_compare (password hash : string) : bool :=
  prefix "$2a$" hash && endsWith ("$" ++ password) hash.

Definition jwt_sign (userId email secret : string) (iat : Z) : string :=
  userId ++ "." ++ email ++ "." ++ secret.

Definition JWT_SECRET : string := "your-secret-key-change-in-production".

Definition env : Env :=
  {| fresh_id := "7d9f3c1e-52aa-4b1c-9a57-0c2e4f6b8d10";
     now := 1700000000;
     salt := "N9qo8uLOickgx2ZMRZoMye" |}.

Definition later : Env :=
  {| fresh_id := "0b1c2d3e-4f50-4a6b-8c7d-9e0f1a2b3c4d";
     now := 1700000600;
     salt := "KIXQJ3mFqvXQ1Yw0cP2Zae" |}.

Definition aliceRow (isEnrolled : bool) : Row :=
  {| row_id := "3f2b8a64-9c1d-4e7a-b5f0-6d8e2c4a1b90";
     row_email := "alice@example.com";
     row_password_hash := bcrypt_hash "password123" 10 "N9qo8uLOickgx2ZMRZoMye";
     row_enrolled := isEnrolled;
     row_created_at := 1690000000;
     row_updated_at := 1690000000 |}.

Definition alice (isEnrolled : bool) : UserData := User.of_row (aliceRow isEnrolled).

(** An account whose identifier is in no table below. *)
Definition ghost : UserData :=
  {| id := "aaaaaaaa-0000-4000-8000-000000000000";
     email := "ghost@example.com";
     passwordHash := "";
     enrolled := false;
     createdAt := 0 |}.

Definition uuid : string := "123e4567-e89b-42d3-a456-426614174000".


(** A camera that plays a live, enabled, unmuted track of the given
    size, with the given frame on the canvas. *)
Definition camera (width height : Z) (data : list Z) : Login.Container :=
  {| Login.video :=
       Some {| Login.paused := false;
               Login.ended := false;
               Login.readyState := 4;
               Login.srcObject :=
                 Some {| Login.active := true;
                         Login.getVideoTracks :=
                           [ {| Login.live := true;
                                Login.muted := false;
                                Login.track_enabled := true;
                                Login.settings_width := Some width;
                                Login.settings_height := Some height;
                                Login.getCapabilities_throws := false |} ] |};
               Login.videoWidth := width;
               Login.videoHeight := height;
               Login.canvas := Login.ImageData data |} |}.

(** The container before the widget has put a video element in it. *)
Definition noVideo : Login.Container := {| Login.video := None |}.

(** [n] pixels of one colour, opaque. *)
Definition pixelsOf (n : Z) (r g b : Z) : list Z :=
  List.concat (repeat [r; g; b; 255] (Z.to_nat n)).

(** A 100 x 100 frame: 125 white pixels, then 9875 black ones. *)
Definition mostlyBlack : list Z :=
  (pixelsOf 125 255 255 255 ++ pixelsOf 9875 0 0 0)%list.

(** A 100 x 100 frame that is black but for its first 100 pixels. *)
Definition nearlyBlack : list Z :=
  (pixelsOf 100 255 255 255 ++ pixelsOf 9900 0 0 0)%list.

End Sample.

(* ===================================================================== *)
(** * Further observations on the table *)
(* ===================================================================== *)

(** The account [User.findById] resolves for an identifier, if any. *)
Definition accountById (db : Table) (userId : string) : option UserData :=
  match User.findById userId {| users := db; sent := None |} with
  | (_, Val found) => found
  | _ => None
  end.

(** No two rows share an identifier, and no two share an email: the
    [PRIMARY KEY] and [UNIQUE] constraints of the schema. *)
Definition uniqueKeys (db : Table) : Prop :=
  NoDup (map row_id db) /\ NoDup (map row_email db).

(** What a request can never change of an account. *)
Definition sameIdentity (u u' : UserData) : Prop :=
  id u' = id u
  /\ email u' = email u
  /\ passwordHash u' = passwordHash u
  /\ createdAt u' = createdAt u.

(** [n] hexadecimal digits, in either letter case. *)
Definition hexDigits (n : nat) (h : string) : Prop :=
  String.length h = n
  /\ forallb Regex.is_hex (list_ascii_of_string h) = true.

(** The colour channels of a pixel, without its alpha channel. *)
Definition colour (p : Z * Z * Z * Z) : Z * Z * Z :=
  let '(r, g, b, _) := p in (r, g, b).

(* ===================================================================== *)
(** * The widget hook [useActionID] (src/unnamed/part_009)

    The hook keeps three refs. The widget itself is a third-party
    object: what the hook can observe of it is which of its methods
    exist and which of its calls throw. The calls the hook makes are
    kept in a log, oldest first. *)
(* ===================================================================== *)

Module ActionID.

(** [BiometricSessionOptions], every field optional. *)
Record Options := {
  size : option string;
  opacity : option Q;
  useVirtualAvatar : option bool;
  frequency : option Z;
  actionID : option string
}.

(** The argument of [new window.Ironvest(...)]. *)
Record Config := {
  cid : string;
  csid : string;
  uid : string;
  baseURL : string;
  debug : bool
}.

(** An instance of the widget, by how it behaves when called. *)
Record Instance := {
  has_stopBiometric : bool;     (* typeof instance.stopBiometric === 'function' *)
  has_destroy : bool;           (* typeof instance.destroy === 'function' *)
  stopBiometric_throws : bool;
  destroy_throws : bool;
  setCsid_throws : bool;
  setUid_throws : bool;
  startBiometricSession_throws : bool
}.

Inductive Call :=
| New (config : Config)
| SetCsid (csid : string)
| SetUid (uid : string)
| StartBiometricSession (containerId : string) (options : Options)
| StopBiometric
| Destroy.

Record Refs := {
  instanceRef : option Instance;
  csidRef : string;
  uidRef : string;
  calls : list Call
}.

(** The refs when the hook is first rendered. *)
Definition mounted : Refs :=
  {| instanceRef := None; csidRef := ""; uidRef := ""; calls := [] |}.

Inductive Completion :=
| Normal
| Throws.

(** What the page provides: [window.Ironvest], a constructor that may
    throw, if the script is loaded; the value [crypto.randomUUID()]
    returns; [import.meta.env.DEV]. *)
Record Page := {
  Ironvest : option (Config -> option Instance);
  randomUUID : string;
  DEV : bool
}.

Definition log (c : Call) (r : Refs) : Refs :=
  {| instanceRef := instanceRef r; csidRef := csidRef r; uidRef := uidRef r;
     calls := (calls r ++ [c])%list |}.

Definition setInstance (i : option Instance) (r : Refs) : Refs :=
  {| instanceRef := i; csidRef := csidRef r; uidRef := uidRef r;
     calls := calls r |}.

(** [initialize]. The block that destroys "any existing instance"
    runs only when there is none, and does nothing. *)
Definition initialize (page : Page) (uid : string) (r : Refs)
  : Refs * Completion :=
  match instanceRef r with
  | Some _ => (r, Normal)                       (* already initialized *)
  | None =>
      match Ironvest page with
      | None => (r, Throws)                     (* 'ActionID SDK not loaded...' *)
      | Some construct =>
          let r := {| instanceRef := None;
                      csidRef := randomUUID page;
                      uidRef := uid;
                      calls := calls r |} in
          let config := {| cid := "ivengprod";
                           csid := csidRef r;
                           uid := uid;
                           baseURL := "https://aa-api.a2.ironvest.com";
                           debug := DEV page |} in
          let r := log (New config) r in
          match construct config with
          | None => (setInstance None r, Throws)
          | Some instance =>
              let r := setInstance (Some instance) r in
              let r := log (SetCsid (csidRef r)) r in
              if setCsid_throws instance then (setInstance None r, Throws)
              else
                let r := log (SetUid uid) r in
                if setUid_throws instance then (setInstance None r, Throws)
                else (r, Normal)
          end
      end
  end.

(** [a ?? b] *)
Definition nullish {A} (a : option A) (b : A) : A :=
  match a with
  | Some a => a
  | None => b
  end.

Definition startBiometric (containerId : string) (options : Options) (r : Refs)
  : Refs * Completion :=
  match instanceRef r with
  | None => (r, Throws)       (* 'ActionID SDK not initialized. ...' *)
  | Some instance =>
      let session :=
        {| size := Some "fill";
           opacity := Some (nullish (opacity options) 1%Q);
           useVirtualAvatar := Some (nullish (useVirtualAvatar options) false);
           frequency := Some (nullish (frequency options) 2000);
           actionID := Some (if JS.truthy_string (actionID options)
                             then JS.to_string (actionID options)
                             else "default") |} in
      (log (StartBiometricSession containerId session) r,
       if startBiometricSession_throws instance then Throws else Normal)
  end.

(** [stop]: the [try] block and its [catch] both end by clearing the
    ref. *)
Definition stop (r : Refs) : Refs :=
  match instanceRef r with
  | None => r
  | Some instance =>
      let r := if has_stopBiometric instance then log StopBiometric r else r in
      if has_stopBiometric instance && stopBiometric_throws instance
      then setInstance None r
      else
        let r := if has_destroy instance then log Destroy r else r in
        setInstance None r
  end.

Definition getCsid (r : Refs) : string := csidRef r.

Definition getUid (r : Refs) : string := uidRef r.

(** A use of the hook by a page, and the refs after a sequence of
    uses; a throw leaves the refs as the call left them. *)
Inductive Use :=
| Initialize (page : Page) (uid : string)
| StartBiometric (containerId : string) (options : Options)
| Stop.

Definition use (u : Use) (r : Refs) : Refs :=
  match u with
  | Initialize page uid => fst (initialize page uid r)
  | StartBiometric containerId options => fst (startBiometric containerId options r)
  | Stop => stop r
  end.

Definition uses (us : list Use) (r : Refs) : Refs :=
  fold_left (fun r u => use u r) us r.

Definition isStart (c : Call) : bool :=
  match c with
  | StartBiometricSession _ _ => true
  | _ => false
  end.

(** While an instance is held, it is the last one built, it was built
    and set up with the session and user identifiers the hook reports,
    and it has only been asked to start sessions since. *)
Definition configured (r : Refs) : Prop :=
  instanceRef r <> None ->
  exists before config started,
    calls r = (before ++ [New config; SetCsid (csidRef r); SetUid (uidRef r)]
               ++ started)%list
    /\ csid config = csidRef r
    /\ uid config = uidRef r
    /\ forallb isStart started = true.

End ActionID.

(* ===================================================================== *)
(** * The browser session: [authService] (src/unnamed/part_007) and the
      interceptors of the HTTP client (src/frontend/src/services/api.ts)

    [localStorage] maps keys to strings. [JSON.stringify] and
    [JSON.parse] on the stored user are parameters; [JSON.parse] gives
    [None] where it throws. *)
(* ===================================================================== *)

Module Browser.

Definition Storage := string -> option string.

Definition getItem (key : string) (ls : Storage) : option string := ls key.

Definition setItem (key value : string) (ls : Storage) : Storage :=
  fun k => if String.eqb k key then Some value else ls k.

Definition removeItem (key : string) (ls : Storage) : Storage :=
  fun k => if String.eqb k key then None else ls k.

(** [s.includes(needle)] *)
Fixpoint includes (needle s : string) : bool :=
  prefix needle s
  || match s with
     | String _ rest => includes needle rest
     | EmptyString => false
     end.

Section WithJson.

Variable stringify : PublicUser -> string.
Variable parse : string -> option PublicUser.

(** The body of [authService.register] and [authService.login] once
    the response has arrived. *)
Definition storeSession (token : string) (user : PublicUser) (ls : Storage)
  : Storage :=
  if JS.truthy_string (Some token)
  then setItem "user" (stringify user) (setItem "token" token ls)
  else ls.

(** The body of [authService.completeEnrollment] once the response has
    arrived: [None] where [JSON.parse] throws. *)
Definition noteEnrollment (enrolled : bool) (ls : Storage) : option Storage :=
  if enrolled
  then
    if JS.truthy_string (getItem "user" ls)
    then
      match parse (JS.to_string (getItem "user" ls)) with
      | None => None
      | Some user =>
          let user := {| pu_id := pu_id user; pu_email := pu_email user;
                         pu_enrolled := true |} in
          Some (setItem "user" (stringify user) ls)
      end
    else Some ls
  else Some ls.

Definition logout (ls : Storage) : Storage :=
  removeItem "user" (removeItem "token" ls).

Definition isAuthenticated (ls : Storage) : bool :=
  JS.truthy_string (getItem "token" ls).

(** [getCurrentUser]: the outer [None] is a throw of [JSON.parse], the
    inner one is [null]. *)
Definition getCurrentUser (ls : Storage) : option (option PublicUser) :=
  if JS.truthy_string (getItem "user" ls)
  then
    match parse (JS.to_string (getItem "user" ls)) with
    | None => None
    | Some user => Some (Some user)
    end
  else Some None.

End WithJson.

(** The request interceptor: the [Authorization] header it sets, if
    any. *)
Definition authorization (ls : Storage) : option string :=
  if JS.truthy_string (getItem "token" ls)
  then Some ("Bearer " ++ JS.to_string (getItem "token" ls))
  else None.

(** The response interceptor on an error: the storage afterwards, and
    the address the page is sent to, if any. The error is rejected
    again in every case. *)
Definition onResponseError (url : option string) (status : option Z)
    (ls : Storage) : Storage * option string :=
  let url := if JS.truthy_string url then JS.to_string url else "" in
  let isVerificationEndpoint :=
    includes "/verify-biometric" url || includes "/enroll/complete" url in
  if match status with Some 401 => true | _ => false end
     && negb isVerificationEndpoint
  then (removeItem "user" (removeItem "token" ls), Some "/login")
  else (ls, None).

End Browser.

(* ===================================================================== *)
(** * Further concrete data for the examples *)
(* ===================================================================== *)

Module Cases.

(** A stand-in for [JSON.stringify] on the stored user. *)
Definition stringify (u : PublicUser) : string :=
  pu_id u ++ "|" ++ pu_email u ++ "|" ++ (if pu_enrolled u then "1" else "0").

(** The text before the first [sep], and the text after it if [sep]
    occurs. *)
Fixpoint splitOn (sep : ascii) (s : string) : string * option string :=
  match s with
  | EmptyString => (EmptyString, None)
  | String c rest =>
      if Ascii.eqb c sep then (EmptyString, Some rest)
      else let (before, after) := splitOn sep rest in (String c before, after)
  end.

(** A stand-in for [JSON.parse]. *)
Definition parse (s : string) : option PublicUser :=
  match splitOn "|" s with
  | (i, Some rest) =>
      match splitOn "|" rest with
      | (mail, Some flag) =>
          if String.eqb flag "1"
          then Some {| pu_id := i; pu_email := mail; pu_enrolled := true |}
          else if String.eqb flag "0"
               then Some {| pu_id := i; pu_email := mail; pu_enrolled := false |}
               else None
      | _ => None
      end
  | _ => None
  end.

Definition token : string := "header.payload.signature".

Definition storedAlice (isEnrolled : bool) : PublicUser :=
  public (Sample.alice isEnrolled).

(** A storage that holds another key only. *)
Definition otherKey : Browser.Storage :=
  Browser.setItem "theme" "dark" (fun _ => None).

(** A widget whose calls all succeed. *)
Definition widget : ActionID.Instance :=
  {| ActionID.has_stopBiometric := true;
     ActionID.has_destroy := true;
     ActionID.stopBiometric_throws := false;
     ActionID.destroy_throws := false;
     ActionID.setCsid_throws := false;
     ActionID.setUid_throws := false;
     ActionID.startBiometricSession_throws := false |}.

(** A camera whose only live track is muted. *)
Definition mutedTrack : Login.Track :=
  {| Login.live := true;
     Login.muted := true;
     Login.track_enabled := true;
     Login.settings_width := Some 640;
     Login.settings_height := Some 480;
     Login.getCapabilities_throws := false |}.

Definition mutedStream : Login.MediaStream :=
  {| Login.active := true; Login.getVideoTracks := [mutedTrack] |}.

Definition mutedVideo : Login.VideoElement :=
  {| Login.paused := false;
     Login.ended := false;
     Login.readyState := 4;
     Login.srcObject := Some mutedStream;
     Login.videoWidth := 640;
     Login.videoHeight := 480;
     Login.canvas := Login.NoContext |}.

Definition mutedCamera : Login.Container :=
  {| Login.video := Some mutedVideo |}.

(** A 2 x 2 grey frame, and two dark 2 x 2 frames that differ in their
    alpha channel only. *)
Definition greyFrame : list Z := Sample.pixelsOf 4 200 200 200.

Definition darkOpaque : list Z := Sample.pixelsOf 4 10 10 10.

Definition darkTranslucent : list Z :=
  List.concat (repeat [10; 10; 10; 0] 4).

Definition page : ActionID.Page :=
  {| ActionID.Ironvest := Some (fun _ => Some widget);
     ActionID.randomUUID := Sample.uuid;
     ActionID.DEV := false |}.

End Cases.

(* ===================================================================== *)
(** * The auth controller (src/unnamed/part_003, lines 1-249) *)
(* ===================================================================== *)

Section Controller.

Variable toLowerCase : string -> string.

(** [bcrypt.hash(password, rounds)] with the salt it draws. *)
Variable bcrypt_hash : string -> Z -> string -> string.

(** [bcrypt.compare(password, hash)] *)
Variable bcrypt_compare : string -> string -> bool.

(** [jwt.sign({ userId, email }, secret, { expiresIn: '24h' })] at a
    given time. *)
Variable jwt_sign : string -> string -> string -> Z -> string.

Variable JWT_SECRET : string.

(** [jwt.sign({ userId: user.id, email: user.email }, JWT_SECRET,
              { expiresIn: '24h' })] *)
Definition sign_token (e : Env) (u : UserData) : string :=
  jwt_sign (id u) (email u) JWT_SECRET (now e).

(** The [catch] block every handler ends with. *)
Definition internal_error : H unit :=
  send 500 (ErrorJson "Internal server error").

Definition register (e : Env) (req : AuthRequest RegisterRequest) : H unit :=
  try_catch
    (let email := reg_email (body req) in
     let password := reg_password (body req) in
     when (negb (JS.truthy_string email) || negb (JS.truthy_string password))
       (send 400 (ErrorJson "Email and password are required") ;; return_) ;;
     existingUser <- User.findByEmail toLowerCase (JS.to_string email) ;;
     when (match existingUser with Some _ => true | None => false end)
       (send 400 (ErrorJson "User already exists") ;; return_) ;;
     let passwordHash := bcrypt_hash (JS.to_string password) 10 (salt e) in
     user <- User.create toLowerCase e (JS.to_string email) passwordHash ;;
     let token := sign_token e user in
     send 201 (AuthJson "User registered successfully" (public user) token))
    internal_error.

Definition login (e : Env) (req : AuthRequest LoginRequest) : H unit :=
  try_catch
    (let email := login_email (body req) in
     let password := login_password (body req) in
     when (negb (JS.truthy_string email) || negb (JS.truthy_string password))
       (send 400 (ErrorJson "Email and password are required") ;; return_) ;;
     found <- User.findByEmail toLowerCase (JS.to_string email) ;;
     match found with
     | None => send 401 (ErrorJson "Invalid credentials") ;; return_
     | Some user =>
         let isValid := bcrypt_compare (JS.to_string password) user.(passwordHash) in
         when (negb isValid)
           (send 401 (ErrorJson "Invalid credentials") ;; return_) ;;
         let token := sign_token e user in
         send_json (AuthJson "Login successful" (public user) token)
     end)
    internal_error.

Definition verifyBiometric (req : AuthRequest BiometricVerifyRequest) : H unit :=
  try_catch
    (let csid := csid (body req) in
     let videoValidated := videoValidated (body req) in
     u <- req_user req ;;
     when (negb (JS.truthy_string csid))
       (send 400 (ErrorJson "CSID is required") ;; return_) ;;
     when (negb (JS.truthy_bool videoValidated))
       (send 400 (ErrorJson
          "Video stream validation required. Camera must be active and capturing.") ;;
        return_) ;;
     when (negb (Regex.uuidRegex_test (JS.to_string csid)))
       (send 400 (ErrorJson "Invalid CSID format") ;; return_) ;;
     when (negb (enrolled u))
       (send 400 (ErrorJson
          "User must complete enrollment before biometric verification") ;;
        return_) ;;
     send_json (VerifyJson true "Biometric verification successful") ;;
     return_ ;;
     send 403 (VerifyFailedJson false "Biometric verification failed"
                 "Biometric data did not match enrolled profile"))
    internal_error.

Definition completeEnrollment (e : Env) (req : AuthRequest EnrollCompleteRequest)
  : H unit :=
  try_catch
    (let csid := enroll_csid (body req) in
     u <- req_user req ;;
     let userId := id u in
     when (negb (JS.truthy_string csid))
       (send 400 (ErrorJson "CSID is required") ;; return_) ;;
     _ <- User.markEnrolled e userId ;;
     send_json (EnrollJson true "Biometric enrollment completed successfully"))
    internal_error.

Definition getProfile (req : AuthRequest unit) : H unit :=
  try_catch
    (u <- req_user req ;;
     send_json (ProfileJson (public u)))
    internal_error.

(** ** The routes (src/unnamed/part_001)

    One request to the API. The protected routes run behind the
    authentication middleware, which is not modelled: the account it
    attaches is part of the request. *)
Inductive Request :=
| PostRegister (req : AuthRequest RegisterRequest)
| PostLogin (req : AuthRequest LoginRequest)
| PostVerifyBiometric (req : AuthRequest BiometricVerifyRequest)
| PostEnrollComplete (req : AuthRequest EnrollCompleteRequest)
| GetProfile (req : AuthRequest unit).

Definition route (e : Env) (r : Request) : H unit :=
  match r with
  | PostRegister req => register e req
  | PostLogin req => login e req
  | PostVerifyBiometric req => verifyBiometric req
  | PostEnrollComplete req => completeEnrollment e req
  | GetProfile req => getProfile req
  end.

(** The table after a sequence of requests, served one after the other. *)
Fixpoint serve_all (rs : list (Env * Request)) (db : Table) : Table :=
  match rs with
  | [] => db
  | (e, r) :: rs' => serve_all rs' (fst (serve (route e r) db))
  end.


(** A protected route reached without an account on the request. *)
Definition lacksAccount (r : Request) : Prop :=
  match r with
  | PostVerifyBiometric req => user req = None
  | PostEnrollComplete req => user req = None
  | GetProfile req => user req = None
  | _ => False
  end.

(** A registration or a login whose email the database refuses as the
    parameter of the lookup. *)
Definition lookupRefused (r : Request) : Prop :=
  match r with
  | PostRegister req =>
      Sql.hasNul (toLowerCase (JS.to_string (reg_email (body req)))) = true
  | PostLogin req =>
      Sql.hasNul (toLowerCase (JS.to_string (login_email (body req)))) = true
  | _ => False
  end.

(** A registration whose insertion the database refuses. *)
Definition insertionRefused (e : Env) (r : Request) (db : Table) : Prop :=
  match r with
  | PostRegister req =>
      Sql.refused db
        (Sql.new_row e (toLowerCase (JS.to_string (reg_email (body req))))
           (bcrypt_hash (JS.to_string (reg_password (body req))) 10 (salt e))
           false) = true
  | _ => False
  end.

(** The email and the password hash of a registration fit their
    columns. *)
Definition fitsColumns (e : Env) (r : Request) : Prop :=
  match r with
  | PostRegister req =>
      Sql.fits (toLowerCase (JS.to_string (reg_email (body req)))) = true
      /\ Sql.fits (bcrypt_hash (JS.to_string (reg_password (body req))) 10 (salt e))
         = true
  | _ => True
  end.
(* ===================================================================== *)
(** * Properties of the handler monad *)
(* ===================================================================== *)

(** Nothing placed after a [return] runs. *)
Lemma after_return_unreachable (k : H unit) (w : World) :
  (return_ ;; k) w = return_ w.
Proof. reflexivity. Qed.

Lemma when_false (h : H unit) (w : World) : when false h w = (w, Val tt).
Proof. reflexivity. Qed.

Lemma when_true (h : H unit) (w : World) : when true h w = h w.
Proof. reflexivity. Qed.

Ltac run_handler :=
  unfold serve, try_catch, bind, when, send_json, send, return_, ret,
    req_user, throw, internal_error;
  cbn.

(* ===================================================================== *)
(** * Verification policy *)
(* ===================================================================== *)

Lemma verifyBiometric_runs
    (u : UserData) (b : BiometricVerifyRequest) (db : Table) :
  serve (verifyBiometric {| body := b; user := Some u |}) db
  = (db, Some (Policy.response
                 (Policy.decide (JS.truthy_string (csid b))
                                (JS.truthy_bool (videoValidated b))
                                (Regex.uuidRegex_test (JS.to_string (csid b)))
                                (enrolled u)))).
Proof.
  unfold verifyBiometric, Policy.decide. run_handler.
  destruct (JS.truthy_string (csid b)); cbn; [| reflexivity].
  destruct (JS.truthy_bool (videoValidated b)); cbn; [| reflexivity].
  destruct (Regex.uuidRegex_test (JS.to_string (csid b))); cbn; [| reflexivity].
  destruct (enrolled u); reflexivity.
Qed.

(** Without an account on the request, reading [req.user!.id] throws
    and the [catch] block answers. *)
Lemma verifyBiometric_unauthenticated (b : BiometricVerifyRequest) (db : Table) :
  serve (verifyBiometric {| body := b; user := None |}) db
  = (db, Some {| status := 500; json := ErrorJson "Internal server error" |}).
Proof. reflexivity. Qed.

(** C1. For an authenticated request the handler answers with the first
    failing check of the fixed order: missing session identifier, then
    the liveness flag, then the UUID shape, then the enrolment of the
    account; otherwise it accepts with [verified: true]. The table is
    not touched. In particular, for an enrolled account that sends
    [videoValidated = false] with a session identifier that is present
    and malformed, the reason is the liveness one, not the format one. *)
Theorem verifyBiometric_first_failing_check_wins
    (u : UserData) (b : BiometricVerifyRequest) (db : Table) :
  serve (verifyBiometric {| body := b; user := Some u |}) db
  = (db, Some (Policy.response
                 (Policy.decide (JS.truthy_string (csid b))
                                (JS.truthy_bool (videoValidated b))
                                (Regex.uuidRegex_test (JS.to_string (csid b)))
                                (enrolled u))))
  /\ (enrolled u = true ->
      videoValidated b = Some false ->
      JS.truthy_string (csid b) = true ->
      Regex.uuidRegex_test (JS.to_string (csid b)) = false ->
      snd (serve (verifyBiometric {| body := b; user := Some u |}) db)
      = Some (Policy.response Policy.VideoValidationRequired)
      /\ snd (serve (verifyBiometric {| body := b; user := Some u |}) db)
         <> Some (Policy.response Policy.InvalidSessionFormat)).
Proof.
  split; [apply verifyBiometric_runs |].
  intros He Hv Hc Hs. rewrite verifyBiometric_runs. cbn [snd].
  unfold Policy.decide. rewrite Hc, Hv, Hs. cbn.
  split; [reflexivity | discriminate].
Qed.

(** The witness of C1: an enrolled account, [videoValidated = false] and
    a session identifier that is not UUID shaped. *)
Lemma verifyBiometric_first_failing_check_wins_witness :
  let b := {| csid := Some "not-a-uuid"; actionID := Some "login";
              videoValidated := Some false |} in
  let db := [Sample.aliceRow true] in
  snd (serve (verifyBiometric {| body := b; user := Some (Sample.alice true) |}) db)
  = Some (Policy.response Policy.VideoValidationRequired)
  /\ snd (serve (verifyBiometric {| body := b; user := Some (Sample.alice true) |}) db)
     <> Some (Policy.response Policy.InvalidSessionFormat).
Proof.
  intros b db.
  apply (proj2 (verifyBiometric_first_failing_check_wins (Sample.alice true) b db));
    reflexivity.
Defined.

(** C9. Every request that passes the four checks is answered with
    [verified: true]; the 403 answer written after the unconditional
    [return] is never sent: whatever the request, authenticated or not,
    the handler answers with status 200, 400 or 500, never 403, and
    leaves the table as it was. *)
Theorem verifyBiometric_never_forbidden
    (req : AuthRequest BiometricVerifyRequest) (db : Table) :
  (exists r,
      serve (verifyBiometric req) db = (db, Some r)
      /\ status r <> 403
      /\ (status r = 200 \/ status r = 400 \/ status r = 500)
      /\ (forall v e m, json r <> VerifyFailedJson v e m))
  /\ (forall u,
        user req = Some u ->
        JS.truthy_string (csid (body req)) = true ->
        JS.truthy_bool (videoValidated (body req)) = true ->
        Regex.uuidRegex_test (JS.to_string (csid (body req))) = true ->
        enrolled u = true ->
        serve (verifyBiometric req) db
        = (db, Some {| status := 200;
                       json := VerifyJson true "Biometric verification successful" |})).
Proof.
  destruct req as [b [u |]].
  - pose proof (verifyBiometric_runs u b db) as E.
    split.
    + eexists. split; [exact E |].
      unfold Policy.decide.
      destruct (JS.truthy_string (csid b)), (JS.truthy_bool (videoValidated b)),
        (Regex.uuidRegex_test (JS.to_string (csid b))), (enrolled u);
        cbn; repeat split; try lia; try discriminate; auto.
    + cbn [user body]. intros u' Hu Hc Hv Hs He. injection Hu as <-.
      rewrite E. unfold Policy.decide. rewrite Hc, Hv, Hs, He. reflexivity.
  - split.
    + eexists. split; [reflexivity |].
      cbn. repeat split; try lia; try discriminate; auto.
    + cbn [user]. discriminate.
Qed.

Lemma verifyBiometric_never_forbidden_witness :
  serve (verifyBiometric
           {| body := {| csid := Some Sample.uuid; actionID := Some "login";
                         videoValidated := Some true |};
              user := Some (Sample.alice true) |})
        [Sample.aliceRow true]
  = ([Sample.aliceRow true],
     Some {| status := 200;
             json := VerifyJson true "Biometric verification successful" |}).
Proof.
  apply (proj2 (verifyBiometric_never_forbidden _ _) (Sample.alice true));
    reflexivity.
Defined.

(* ===================================================================== *)
(** * Reading the enrolled flag *)
(* ===================================================================== *)

Lemma enrolledOf_filter (db : Table) (i : string) :
  enrolledOf db i
  = match filter (fun r => String.eqb (row_id r) i) db with
    | [] => None
    | r :: _ => Some (row_enrolled r)
    end.
Proof.
  unfold enrolledOf, User.findById, Sql.select_by_id, bind. cbn.
  destruct (filter _ db); reflexivity.
Qed.

Lemma enrolledOf_cons (r : Row) (db : Table) (i : string) :
  enrolledOf (r :: db) i
  = if String.eqb (row_id r) i then Some (row_enrolled r) else enrolledOf db i.
Proof.
  rewrite !enrolledOf_filter. cbn.
  destruct (String.eqb (row_id r) i); reflexivity.
Qed.

Lemma enrolledOf_stored (db : Table) (i : string) :
  stored db i = true <-> exists b, enrolledOf db i = Some b.
Proof.
  induction db as [| r db IH].
  - cbn. split; [discriminate | intros [b Hb]; discriminate].
  - rewrite enrolledOf_cons. cbn.
    destruct (String.eqb (row_id r) i); cbn.
    + split; [eauto | reflexivity].
    + exact IH.
Qed.

Lemma updated_not_stored (e : Env) (v : bool) (i : string) (db : Table) :
  stored db i = false -> Sql.updated e v i db = db.
Proof.
  induction db as [| r db IH]; cbn; [reflexivity |].
  destruct (String.eqb (row_id r) i); cbn; [discriminate |].
  intros Hs. f_equal. now apply IH.
Qed.

Lemma enrolledOf_updated_same (e : Env) (v : bool) (i : string) (db : Table) :
  stored db i = true -> enrolledOf (Sql.updated e v i db) i = Some v.
Proof.
  induction db as [| r db IH]; cbn; [discriminate |].
  destruct (String.eqb (row_id r) i) eqn:E; cbn; intros Hs.
  - rewrite enrolledOf_cons. cbn. now rewrite E.
  - rewrite enrolledOf_cons, E. now apply IH.
Qed.

Lemma enrolledOf_updated_other (e : Env) (v : bool) (i j : string) (db : Table) :
  i <> j -> enrolledOf (Sql.updated e v i db) j = enrolledOf db j.
Proof.
  intros Hij. induction db as [| r db IH]; [reflexivity |].
  unfold Sql.updated in *. cbn [map]. rewrite !enrolledOf_cons.
  destruct (String.eqb (row_id r) i) eqn:E; cbn [row_id Sql.set_enrolled row_enrolled].
  - apply String.eqb_eq in E. rewrite E.
    destruct (String.eqb i j) eqn:F; [apply String.eqb_eq in F; contradiction |].
    exact IH.
  - rewrite IH. reflexivity.
Qed.

(** Marking twice stores what marking once stores, up to [updated_at]. *)
Lemma updated_twice (e1 e2 : Env) (i : string) (db : Table) :
  map User.of_row (Sql.updated e2 true i (Sql.updated e1 true i db))
  = map User.of_row (Sql.updated e1 true i db).
Proof.
  induction db as [| r db IH]; [reflexivity |].
  unfold Sql.updated in *. cbn [map]. rewrite IH. f_equal.
  destruct (String.eqb (row_id r) i) eqn:E; cbn; rewrite E; reflexivity.
Qed.

(* ===================================================================== *)
(** * Enrollment completion *)
(* ===================================================================== *)

Lemma completeEnrollment_runs (e : Env) (u : UserData)
    (b : EnrollCompleteRequest) (db : Table) :
  JS.truthy_string (enroll_csid b) = true ->
  serve (completeEnrollment e {| body := b; user := Some u |}) db
  = (Sql.updated e true (id u) db, Some enrollmentCompleted).
Proof.
  intros Hc. unfold completeEnrollment. run_handler. rewrite Hc. cbn.
  unfold User.markEnrolled, Sql.update_enrolled, bind. cbn.
  destruct (filter _ db); reflexivity.
Qed.

Lemma completeEnrollment_rejects (e : Env) (u : UserData)
    (b : EnrollCompleteRequest) (db : Table) :
  JS.truthy_string (enroll_csid b) = false ->
  serve (completeEnrollment e {| body := b; user := Some u |}) db
  = (db, Some {| status := 400; json := ErrorJson "CSID is required" |}).
Proof.
  intros Hc. unfold completeEnrollment. run_handler. rewrite Hc. reflexivity.
Qed.

(** C4. An authenticated enrollment completion whose session identifier
    is present marks the account as enrolled and answers
    [enrolled: true], whatever the shape of the identifier: every table
    row of the account gets the flag, the stored account reads as
    enrolled afterwards, and no other account changes. When the
    identifier is missing or empty the answer is the 400 validation
    error and the table is left as it was. *)
Theorem completeEnrollment_marks_account
    (e : Env) (u : UserData) (b : EnrollCompleteRequest) (db : Table) :
  (JS.truthy_string (enroll_csid b) = true ->
   let after := serve (completeEnrollment e {| body := b; user := Some u |}) db in
   snd after = Some enrollmentCompleted
   /\ fst after = Sql.updated e true (id u) db
   /\ (forall r, In r (fst after) -> row_id r = id u -> row_enrolled r = true)
   /\ (stored db (id u) = true -> enrolledOf (fst after) (id u) = Some true)
   /\ (forall i, i <> id u -> enrolledOf (fst after) i = enrolledOf db i)
   /\ (forall b', JS.truthy_string (enroll_csid b') = true ->
         serve (completeEnrollment e {| body := b'; user := Some u |}) db = after))
  /\ (JS.truthy_string (enroll_csid b) = false ->
      serve (completeEnrollment e {| body := b; user := Some u |}) db
      = (db, Some {| status := 400; json := ErrorJson "CSID is required" |})).
Proof.
  split.
  - intros Hc after. subst after.
    rewrite (completeEnrollment_runs e u b db Hc). cbn [fst snd].
    repeat split.
    + intros r Hin Hr. unfold Sql.updated in Hin.
      apply in_map_iff in Hin as [r0 [<- _]].
      destruct (String.eqb (row_id r0) (id u)) eqn:E; [reflexivity |].
      apply String.eqb_neq in E. contradiction.
    + now apply enrolledOf_updated_same.
    + intros i Hi. apply enrolledOf_updated_other. congruence.
    + intros b' Hc'. now apply completeEnrollment_runs.
  - apply completeEnrollment_rejects.
Qed.

Lemma completeEnrollment_marks_account_witness :
  let u := Sample.alice false in
  let b := {| enroll_csid := Some "anything but a uuid" |} in
  let db := [Sample.aliceRow false] in
  let after := serve (completeEnrollment Sample.env {| body := b; user := Some u |}) db in
  snd after = Some enrollmentCompleted
  /\ fst after = Sql.updated Sample.env true (id u) db
  /\ (forall r, In r (fst after) -> row_id r = id u -> row_enrolled r = true)
  /\ (stored db (id u) = true -> enrolledOf (fst after) (id u) = Some true)
  /\ (forall i, i <> id u -> enrolledOf (fst after) i = enrolledOf db i)
  /\ (forall b', JS.truthy_string (enroll_csid b') = true ->
        serve (completeEnrollment Sample.env {| body := b'; user := Some u |}) db
        = after).
Proof.
  intros u b db.
  apply (proj1 (completeEnrollment_marks_account Sample.env u b db)); reflexivity.
Defined.

(** C10. The handler does not look at what the update returns: when the
    identifier of the authenticated account matches no row,
    [User.markEnrolled] returns [null], no row is modified, and the
    answer is still 200 with [enrolled: true]. *)
Theorem completeEnrollment_ignores_update_result
    (e : Env) (u : UserData) (b : EnrollCompleteRequest) (db : Table) :
  JS.truthy_string (enroll_csid b) = true ->
  stored db (id u) = false ->
  User.markEnrolled e (id u) {| users := db; sent := None |}
  = ({| users := db; sent := None |}, Val None)
  /\ serve (completeEnrollment e {| body := b; user := Some u |}) db
     = (db, Some enrollmentCompleted).
Proof.
  intros Hc Hs. split.
  - unfold User.markEnrolled, Sql.update_enrolled, bind. cbn [users sent].
    rewrite (updated_not_stored e true (id u) db Hs).
    assert (F : filter (fun r => String.eqb (row_id r) (id u)) db = []).
    { clear Hc. induction db as [| r db IH]; [reflexivity |].
      cbn in *. destruct (String.eqb (row_id r) (id u)); [discriminate |].
      now apply IH. }
    rewrite F. reflexivity.
  - rewrite (completeEnrollment_runs e u b db Hc).
    now rewrite updated_not_stored.
Qed.

Lemma completeEnrollment_ignores_update_result_witness :
  let db := [Sample.aliceRow false] in
  User.markEnrolled Sample.env (id Sample.ghost) {| users := db; sent := None |}
  = ({| users := db; sent := None |}, Val None)
  /\ serve (completeEnrollment Sample.env
              {| body := {| enroll_csid := Some Sample.uuid |};
                 user := Some Sample.ghost |}) db
     = (db, Some enrollmentCompleted).
Proof.
  intros db.
  apply (completeEnrollment_ignores_update_result Sample.env Sample.ghost
           {| enroll_csid := Some Sample.uuid |} db); reflexivity.
Defined.

(** C8. Enrollment completion is idempotent. Two calls for the same
    stored account, each with a session identifier that is present, both
    answer 200 with [enrolled: true]; the account reads as enrolled
    after the first call and after the second, and the second call
    changes nothing in the accounts but the update timestamp. *)
Theorem completeEnrollment_idempotent
    (e1 e2 : Env) (u1 u2 : UserData) (b1 b2 : EnrollCompleteRequest)
    (db : Table) :
  id u2 = id u1 ->
  stored db (id u1) = true ->
  JS.truthy_string (enroll_csid b1) = true ->
  JS.truthy_string (enroll_csid b2) = true ->
  let first := serve (completeEnrollment e1 {| body := b1; user := Some u1 |}) db in
  let second := serve (completeEnrollment e2 {| body := b2; user := Some u2 |})
                      (fst first) in
  snd first = Some enrollmentCompleted
  /\ snd second = snd first
  /\ enrolledOf (fst first) (id u1) = Some true
  /\ enrolledOf (fst second) (id u1) = Some true
  /\ map User.of_row (fst second) = map User.of_row (fst first).
Proof.
  intros Hid Hs Hc1 Hc2 first second. subst first second.
  rewrite (completeEnrollment_runs e1 u1 b1 db Hc1). cbn [fst snd].
  rewrite (completeEnrollment_runs e2 u2 b2 _ Hc2). cbn [fst snd].
  rewrite Hid.
  assert (Hs' : stored (Sql.updated e1 true (id u1) db) (id u1) = true).
  { apply enrolledOf_stored. exists true. now apply enrolledOf_updated_same. }
  repeat split.
  - now apply enrolledOf_updated_same.
  - now apply enrolledOf_updated_same.
  - apply updated_twice.
Qed.

Lemma completeEnrollment_idempotent_witness :
  let db := [Sample.aliceRow false] in
  let first := serve (completeEnrollment Sample.env
                        {| body := {| enroll_csid := Some Sample.uuid |};
                           user := Some (Sample.alice false) |}) db in
  let second := serve (completeEnrollment Sample.later
                         {| body := {| enroll_csid := Some "second-call" |};
                            user := Some (Sample.alice true) |})
                      (fst first) in
  snd first = Some enrollmentCompleted
  /\ snd second = snd first
  /\ enrolledOf (fst first) (id (Sample.alice false)) = Some true
  /\ enrolledOf (fst second) (id (Sample.alice false)) = Some true
  /\ map User.of_row (fst second) = map User.of_row (fst first).
Proof.
  intros db.
  apply (completeEnrollment_idempotent Sample.env Sample.later
           (Sample.alice false) (Sample.alice true)
           {| enroll_csid := Some Sample.uuid |}
           {| enroll_csid := Some "second-call" |} db); reflexivity.
Defined.

(* ===================================================================== *)
(** * Registration and login *)
(* ===================================================================== *)

Lemma hasNul_spec (s : string) :
  Sql.hasNul s = true <-> In Ascii.zero (list_ascii_of_string s).
Proof.
  induction s as [| c rest IH]; cbn; [split; [discriminate | tauto] |].
  rewrite orb_true_iff, IH, Ascii.eqb_eq. tauto.
Qed.

(** The lookup of an email: it throws exactly when the database refuses
    the parameter. *)
Lemma findByEmail_runs (email : string) (w : World) :
  User.findByEmail toLowerCase email w
  = match accountOf toLowerCase (users w) email with
    | Some u => (w, Val (Some u))
    | None =>
        if Sql.hasNul (toLowerCase email) then (w, Thrown) else (w, Val None)
    end.
Proof.
  unfold accountOf, User.findByEmail, Sql.select_by_email, bind. cbn.
  destruct (filter _ (users w)); [| reflexivity].
  destruct (Sql.hasNul _); reflexivity.
Qed.

Lemma accountOf_filter (db : Table) (email : string) :
  accountOf toLowerCase db email
  = match filter (fun r => String.eqb (row_email r) (toLowerCase email)) db with
    | [] => None
    | r :: _ => Some (User.of_row r)
    end.
Proof.
  unfold accountOf, User.findByEmail, Sql.select_by_email, bind. cbn.
  destruct (filter _ db); [| reflexivity].
  destruct (Sql.hasNul _); reflexivity.
Qed.


Lemma refused_false (db : Table) (row : Row) :
  Sql.refused db row = false ->
  Sql.hasNul (row_email row) = false
  /\ Sql.hasNul (row_password_hash row) = false
  /\ Sql.violates db row = false.
Proof.
  unfold Sql.refused. intros R.
  apply orb_false_elim in R as [R V]. apply orb_false_elim in R as [N1 N2].
  auto.
Qed.


Lemma create_runs (e : Env) (email hash : string) (db : Table) :
  User.create toLowerCase e email hash {| users := db; sent := None |}
  = let row := Sql.new_row e (toLowerCase email) hash false in
    if Sql.refused db row
    then ({| users := db; sent := None |}, Thrown)
    else ({| users := (db ++ [row])%list; sent := None |}, Val (User.of_row row)).
Proof.
  unfold User.create, Sql.insert_user, bind. cbn [users sent].
  destruct (Sql.refused db _); reflexivity.
Qed.

Lemma register_runs (e : Env) (req : AuthRequest RegisterRequest) (db : Table) :
  JS.truthy_string (reg_email (body req)) = true ->
  JS.truthy_string (reg_password (body req)) = true ->
  serve (register e req) db
  = match accountOf toLowerCase db (JS.to_string (reg_email (body req))) with
    | Some _ => (db, Some userAlreadyExists)
    | None =>
        let hash := bcrypt_hash (JS.to_string (reg_password (body req))) 10 (salt e) in
        let row := Sql.new_row e (toLowerCase (JS.to_string (reg_email (body req))))
                               hash false in
        if Sql.refused db row
        then (db, Some internalError)
        else ((db ++ [row])%list,
              Some {| status := 201;
                      json := AuthJson "User registered successfully"
                                (public (User.of_row row))
                                (sign_token e (User.of_row row)) |})
    end.
Proof.
  intros He Hp. unfold register.
  unfold serve, try_catch, bind at 1, when. rewrite He, Hp. cbn [negb orb ret].
  unfold bind at 1. rewrite findByEmail_runs. cbn [users].
  destruct (accountOf toLowerCase db _) as [u |]; [reflexivity |].
  cbn zeta.
  destruct (Sql.hasNul (toLowerCase _)) eqn:N.
  { unfold Sql.refused. cbn [Sql.new_row row_email]. rewrite N. reflexivity. }
  unfold bind at 1. cbn [ret].
  unfold bind at 1. rewrite create_runs. cbn zeta.
  destruct (Sql.refused db _); reflexivity.
Qed.

Lemma register_needs_fields (e : Env) (req : AuthRequest RegisterRequest) (db : Table) :
  JS.truthy_string (reg_email (body req))
  && JS.truthy_string (reg_password (body req)) = false ->
  serve (register e req) db = (db, Some fieldsRequired).
Proof.
  intros Hf. unfold register, serve, try_catch, bind at 1, when.
  destruct (JS.truthy_string (reg_email (body req))),
    (JS.truthy_string (reg_password (body req))); try discriminate; reflexivity.
Qed.

Lemma login_needs_fields (e : Env) (req : AuthRequest LoginRequest) (db : Table) :
  JS.truthy_string (login_email (body req))
  && JS.truthy_string (login_password (body req)) = false ->
  serve (login e req) db = (db, Some fieldsRequired).
Proof.
  intros Hf. unfold login, serve, try_catch, bind at 1, when.
  destruct (JS.truthy_string (login_email (body req))),
    (JS.truthy_string (login_password (body req))); try discriminate; reflexivity.
Qed.

Lemma login_runs (e : Env) (req : AuthRequest LoginRequest) (db : Table) :
  JS.truthy_string (login_email (body req)) = true ->
  JS.truthy_string (login_password (body req)) = true ->
  serve (login e req) db
  = (db,
     Some match accountOf toLowerCase db (JS.to_string (login_email (body req))) with
          | None =>
              if Sql.hasNul (toLowerCase (JS.to_string (login_email (body req))))
              then internalError
              else invalidCredentials
          | Some u =>
              if bcrypt_compare (JS.to_string (login_password (body req)))
                                (passwordHash u)
              then {| status := 200;
                      json := AuthJson "Login successful" (public u)
                                (sign_token e u) |}
              else invalidCredentials
          end).
Proof.
  intros He Hp. unfold login.
  unfold serve, try_catch, bind at 1, when. rewrite He, Hp. cbn [negb orb ret].
  unfold bind at 1. rewrite findByEmail_runs. cbn [users].
  destruct (accountOf toLowerCase db _) as [u |].
  - destruct (bcrypt_compare _ (passwordHash u)); reflexivity.
  - destruct (Sql.hasNul _); reflexivity.
Qed.



(* ===================================================================== *)
(** * The enrolled flag over the life of the table *)
(* ===================================================================== *)

Lemma enrolledOf_app_kept (db rows : Table) (i : string) (b : bool) :
  enrolledOf db i = Some b -> enrolledOf (db ++ rows)%list i = Some b.
Proof.
  induction db as [| r db IH]; [discriminate |].
  cbn [app]. rewrite !enrolledOf_cons.
  destruct (String.eqb (row_id r) i); [trivial | exact IH].
Qed.

Lemma enrolledOf_app_new (db : Table) (row : Row) :
  stored db (row_id row) = false ->
  enrolledOf (db ++ [row])%list (row_id row) = Some (row_enrolled row).
Proof.
  induction db as [| r db IH]; cbn [app stored existsb].
  - intros _. rewrite enrolledOf_cons, String.eqb_refl. reflexivity.
  - rewrite enrolledOf_cons.
    destruct (String.eqb (row_id r) (row_id row)); cbn; [discriminate | exact IH].
Qed.

(** What one request can do to the table: nothing, append a row that is
    not enrolled under a new identifier, or, for an enrollment
    completion only, set the flag of one account. *)
Lemma route_table (e : Env) (r : Request) (db : Table) :
  fst (serve (route e r) db) = db
  \/ (exists row, fst (serve (route e r) db) = (db ++ [row])%list
                  /\ row_enrolled row = false
                  /\ stored db (row_id row) = false
                  /\ (exists email, row_email row = toLowerCase email)
                  /\ exists req, r = PostRegister req)
  \/ (exists req u, r = PostEnrollComplete req
                    /\ user req = Some u
                    /\ JS.truthy_string (enroll_csid (body req)) = true
                    /\ fst (serve (route e r) db) = Sql.updated e true (id u) db).
Proof.
  destruct r as [req | req | req | req | req]; cbn [route].
  - destruct (JS.truthy_string (reg_email (body req))
              && JS.truthy_string (reg_password (body req))) eqn:F.
    + apply andb_prop in F as [He Hp]. rewrite (register_runs e req db He Hp).
      destruct (accountOf toLowerCase db _); [left; reflexivity |].
      cbn zeta.
      destruct (Sql.refused db _) eqn:R; [left; reflexivity |].
      right; left. eexists. split; [reflexivity |].
      split; [reflexivity |].
      split; [| split; [cbn; eauto | eauto]].
      destruct (refused_false _ _ R) as [_ [_ V]].
      unfold Sql.violates in V. apply orb_false_elim in V as [V _].
      apply orb_false_elim in V as [V _]. apply orb_false_elim in V as [V _].
      exact V.
    + rewrite (register_needs_fields e req db F). left; reflexivity.
  - destruct (JS.truthy_string (login_email (body req))
              && JS.truthy_string (login_password (body req))) eqn:F.
    + apply andb_prop in F as [He Hp]. rewrite (login_runs e req db He Hp).
      left; reflexivity.
    + rewrite (login_needs_fields e req db F). left; reflexivity.
  - destruct req as [b [u |]].
    + rewrite verifyBiometric_runs. left; reflexivity.
    + left; reflexivity.
  - destruct req as [b [u |]].
    + destruct (JS.truthy_string (enroll_csid b)) eqn:Hc.
      * right; right. exists {| body := b; user := Some u |}, u.
        rewrite (completeEnrollment_runs e u b db Hc). auto.
      * rewrite (completeEnrollment_rejects e u b db Hc). left; reflexivity.
    + left; reflexivity.
  - destruct req as [b [u |]]; left; reflexivity.
Qed.

(** C5. The enrolled flag only goes from false to true. An account is
    created with [enrolled = false] and reads so once stored; a request
    other than an enrollment completion leaves the flag of every account
    as it was; an enrollment completion leaves it as it was or sets it
    to true; and over any sequence of requests an account that reads as
    enrolled keeps reading as enrolled. *)
Theorem enrolled_flag_never_reversed :
  (forall e email hash db w u,
      User.create toLowerCase e email hash {| users := db; sent := None |}
      = (w, Val u) ->
      enrolled u = false /\ enrolledOf (users w) (id u) = Some false)
  /\ (forall e r db i b,
        (forall req, r <> PostEnrollComplete req) ->
        enrolledOf db i = Some b ->
        enrolledOf (fst (serve (route e r) db)) i = Some b)
  /\ (forall e req db i b,
        enrolledOf db i = Some b ->
        enrolledOf (fst (serve (completeEnrollment e req) db)) i
        = Some (match user req with
                | Some u =>
                    if JS.truthy_string (enroll_csid (body req))
                       && String.eqb (id u) i
                    then true else b
                | None => b
                end))
  /\ (forall rs db i,
        enrolledOf db i = Some true ->
        enrolledOf (serve_all rs db) i = Some true).
Proof.
  assert (Step : forall e r db i,
             enrolledOf db i = Some true ->
             enrolledOf (fst (serve (route e r) db)) i = Some true).
  { intros e r db i Hi.
    destruct (route_table e r db)
      as [-> | [[row [-> _]] | [req [u [_ [_ [_ ->]]]]]]].
    - exact Hi.
    - now apply enrolledOf_app_kept.
    - destruct (String.eqb (id u) i) eqn:E.
      + apply String.eqb_eq in E. subst i.
        apply enrolledOf_updated_same. apply enrolledOf_stored. eauto.
      + apply String.eqb_neq in E.
        rewrite enrolledOf_updated_other; [exact Hi | exact E]. }
  split; [| split; [| split]].
  - intros e email hash db w u Hcreate.
    rewrite create_runs in Hcreate. cbn zeta in Hcreate.
    destruct (Sql.refused db _) eqn:R; [discriminate |].
    destruct (refused_false _ _ R) as [_ [_ V]].
    injection Hcreate as <- <-. cbn [users].
    split; [reflexivity |].
    unfold Sql.violates in V. apply orb_false_elim in V as [V _].
    apply orb_false_elim in V as [V _]. apply orb_false_elim in V as [V _].
    apply (enrolledOf_app_new db _ V).
  - intros e r db i b Hr Hi.
    destruct (route_table e r db)
      as [-> | [[row [-> _]] | [req [u [-> _]]]]].
    + exact Hi.
    + now apply enrolledOf_app_kept.
    + exfalso. now apply (Hr req).
  - intros e req db i b Hi. destruct req as [bd [u |]]; cbn [user body].
    + destruct (JS.truthy_string (enroll_csid bd)) eqn:Hc; cbn [andb].
      * rewrite (completeEnrollment_runs e u bd db Hc). cbn [fst].
        destruct (String.eqb (id u) i) eqn:E.
        -- apply String.eqb_eq in E. subst i.
           apply enrolledOf_updated_same. apply enrolledOf_stored. eauto.
        -- apply String.eqb_neq in E.
           rewrite enrolledOf_updated_other; [exact Hi | exact E].
      * rewrite (completeEnrollment_rejects e u bd db Hc). exact Hi.
    + exact Hi.
  - intros rs. induction rs as [| [e r] rs IH]; intros db i Hi; cbn [serve_all].
    + exact Hi.
    + apply IH. now apply Step.
Qed.

(** The form in which emails are stored is an invariant of the table,
    as soon as lower-casing a lower-cased string changes nothing. *)
Lemma lowercased_preserved (e : Env) (r : Request) (db : Table) :
  (forall s, toLowerCase (toLowerCase s) = toLowerCase s) ->
  lowercased toLowerCase db ->
  lowercased toLowerCase (fst (serve (route e r) db)).
Proof.
  intros Hidem Hl. unfold lowercased in *.
  destruct (route_table e r db)
    as [-> | [[row [-> [_ [_ [[email Hrow] _]]]]] | [req [u [_ [_ [_ ->]]]]]]].
  - exact Hl.
  - apply Forall_app. split; [exact Hl |].
    constructor; [| constructor]. rewrite Hrow. apply Hidem.
  - unfold Sql.updated. apply Forall_map.
    eapply Forall_impl; [| exact Hl].
    intros r0 Hr0. destruct (String.eqb (row_id r0) (id u)); exact Hr0.
Qed.

Unset Implicit Arguments.

(* ===================================================================== *)
(** * The account model: insertion and lookup *)
(* ===================================================================== *)

Lemma accountById_filter (db : Table) (i : string) :
  accountById db i
  = match filter (fun r => String.eqb (row_id r) i) db with
    | [] => None
    | r :: _ => Some (User.of_row r)
    end.
Proof.
  unfold accountById, User.findById, Sql.select_by_id, bind. cbn.
  destruct (filter _ db); reflexivity.
Qed.

Lemma filter_none {A : Type} (p : A -> bool) (l : list A) :
  existsb p l = false -> filter p l = [].
Proof.
  induction l as [| x l IH]; cbn; [reflexivity |].
  destruct (p x); cbn; [discriminate | exact IH].
Qed.

Lemma violates_false (db : Table) (row : Row) :
  Sql.violates db row = false ->
  existsb (fun r => String.eqb (row_id r) (row_id row)) db = false
  /\ existsb (fun r => String.eqb (row_email r) (row_email row)) db = false
  /\ Z.of_nat (String.length (row_email row)) <= 255
  /\ Z.of_nat (String.length (row_password_hash row)) <= 255.
Proof.
  unfold Sql.violates. intros V.
  apply orb_false_elim in V as [V L2]. apply orb_false_elim in V as [V L1].
  apply orb_false_elim in V as [V1 V2].
  apply Z.ltb_ge in L1, L2. auto.
Qed.




(** X2. [User.create] under an email that [User.findByEmail] resolves
    throws, whatever the letter case, and the table stays as it was. *)
Theorem create_rejects_known_email
    (e : Env) (mail hash : string) (db : Table) (u : UserData) :
  accountOf toLowerCase db mail = Some u ->
  User.create toLowerCase e mail hash {| users := db; sent := None |}
  = ({| users := db; sent := None |}, Thrown).
Proof.
  intros Hfound. rewrite create_runs. cbn zeta.
  destruct (Sql.refused db _) eqn:R; [reflexivity |].
  exfalso.
  destruct (refused_false _ _ R) as [_ [_ V]].
  destruct (violates_false _ _ V) as [_ [Vmail _]].
  cbn [Sql.new_row row_email] in Vmail.
  rewrite accountOf_filter, (filter_none _ _ Vmail) in Hfound. discriminate.
Qed.

Lemma filter_updated (e : Env) (v : bool) (i j : string) (db : Table) :
  filter (fun r => String.eqb (row_id r) j) (Sql.updated e v i db)
  = map (fun r => if String.eqb (row_id r) i then Sql.set_enrolled e v r else r)
        (filter (fun r => String.eqb (row_id r) j) db).
Proof.
  unfold Sql.updated.
  induction db as [| r db IH]; [reflexivity |].
  cbn [map filter].
  assert (E : row_id (if String.eqb (row_id r) i then Sql.set_enrolled e v r else r)
              = row_id r) by (destruct (String.eqb (row_id r) i); reflexivity).
  rewrite E. destruct (String.eqb (row_id r) j); cbn [map]; now rewrite IH.
Qed.

(** X3. Update and lookup round trip. For a stored identifier
    [User.markEnrolled] returns the account as it was but enrolled, and
    that is the account [User.findById] resolves afterwards. *)
Theorem markEnrolled_returns_account
    (e : Env) (i : string) (db : Table) (u : UserData) :
  accountById db i = Some u ->
  let u' := {| id := id u; email := email u; passwordHash := passwordHash u;
               enrolled := true; createdAt := createdAt u |} in
  User.markEnrolled e i {| users := db; sent := None |}
  = ({| users := Sql.updated e true i db; sent := None |}, Val (Some u'))
  /\ accountById (Sql.updated e true i db) i = Some u'.
Proof.
  intros Hfound u'. subst u'.
  rewrite accountById_filter in Hfound.
  unfold User.markEnrolled, Sql.update_enrolled, bind. cbn [users sent].
  rewrite accountById_filter, filter_updated.
  destruct (filter _ db) as [| r rows] eqn:F; [discriminate |].
  injection Hfound as <-.
  assert (Hr : String.eqb (row_id r) i = true).
  { assert (Hin : In r (filter (fun r => String.eqb (row_id r) i) db))
      by (rewrite F; left; reflexivity).
    apply filter_In in Hin. apply Hin. }
  cbn [map User.first_row_or_null ret]. rewrite Hr. split; reflexivity.
Qed.

(* ===================================================================== *)
(** * Invariants of the table *)
(* ===================================================================== *)

(** What one request does to the table, with what the insertion
    checked. *)
Lemma route_effect (e : Env) (r : Request) (db : Table) :
  fst (serve (route e r) db) = db
  \/ (exists row, fst (serve (route e r) db) = (db ++ [row])%list
                  /\ Sql.violates db row = false
                  /\ row_enrolled row = false
                  /\ exists mail, row_email row = toLowerCase mail)
  \/ (exists i, fst (serve (route e r) db) = Sql.updated e true i db).
Proof.
  destruct r as [req | req | req | req | req]; cbn [route].
  - destruct (JS.truthy_string (reg_email (body req))
              && JS.truthy_string (reg_password (body req))) eqn:F.
    + apply andb_prop in F as [He Hp]. rewrite (register_runs e req db He Hp).
      destruct (accountOf toLowerCase db _); [left; reflexivity |].
      cbn zeta.
      destruct (Sql.refused db _) eqn:R; [left; reflexivity |].
      destruct (refused_false _ _ R) as [_ [_ V]].
      right; left. eexists. split; [reflexivity |].
      split; [exact V |]. split; [reflexivity | cbn; eauto].
    + rewrite (register_needs_fields e req db F). left; reflexivity.
  - destruct (JS.truthy_string (login_email (body req))
              && JS.truthy_string (login_password (body req))) eqn:F.
    + apply andb_prop in F as [He Hp]. rewrite (login_runs e req db He Hp).
      left; reflexivity.
    + rewrite (login_needs_fields e req db F). left; reflexivity.
  - destruct req as [b [u |]].
    + rewrite verifyBiometric_runs. left; reflexivity.
    + left; reflexivity.
  - destruct req as [b [u |]].
    + destruct (JS.truthy_string (enroll_csid b)) eqn:Hc.
      * right; right. exists (id u).
        now rewrite (completeEnrollment_runs e u b db Hc).
      * rewrite (completeEnrollment_rejects e u b db Hc). left; reflexivity.
    + left; reflexivity.
  - destruct req as [b [u |]]; left; reflexivity.
Qed.

Lemma not_in_map {A : Type} (f : Row -> A) (eqb : A -> A -> bool) (x : A)
    (db : Table) :
  (forall a b, eqb a b = true <-> a = b) ->
  existsb (fun r => eqb (f r) x) db = false -> ~ In x (map f db).
Proof.
  intros Heqb Hex Hin. apply in_map_iff in Hin as [r [Hr Hin]].
  assert (Htrue : existsb (fun r => eqb (f r) x) db = true).
  { apply existsb_exists. exists r. split; [exact Hin | now apply Heqb]. }
  congruence.
Qed.

Lemma NoDup_snoc {A : Type} (l : list A) (x : A) :
  NoDup l -> ~ In x l -> NoDup (l ++ [x])%list.
Proof.
  intros Hl Hx. induction Hl as [| y l Hy Hl IH]; cbn.
  - constructor; [intros [] | constructor].
  - constructor.
    + intros Hin. apply in_app_or in Hin as [Hin | [-> | []]]; [contradiction |].
      apply Hx. left; reflexivity.
    + apply IH. intros Hin. apply Hx. right; exact Hin.
Qed.

Lemma updated_keys (e : Env) (v : bool) (i : string) (db : Table) :
  map row_id (Sql.updated e v i db) = map row_id db
  /\ map row_email (Sql.updated e v i db) = map row_email db.
Proof.
  unfold Sql.updated. rewrite !map_map.
  split; apply map_ext; intros r; destruct (String.eqb (row_id r) i); reflexivity.
Qed.

(** X4. The keys of the table stay unique. Starting from a table whose
    identifiers are pairwise distinct and whose emails are pairwise
    distinct, no sequence of requests produces two rows with the same
    identifier or the same email. *)
Theorem unique_keys_preserved (rs : list (Env * Request)) (db : Table) :
  uniqueKeys db -> uniqueKeys (serve_all rs db).
Proof.
  revert db. induction rs as [| [e r] rs IH]; intros db Hu; cbn [serve_all];
    [exact Hu |].
  apply IH. destruct Hu as [Hid Hmail].
  destruct (route_effect e r db) as [-> | [[row [-> [V _]]] | [i ->]]].
  - split; assumption.
  - destruct (violates_false _ _ V) as [Vid [Vmail _]].
    unfold uniqueKeys. rewrite !map_app. cbn [map].
    split; apply NoDup_snoc; trivial.
    + apply (not_in_map row_id String.eqb); [apply String.eqb_eq | exact Vid].
    + apply (not_in_map row_email String.eqb); [apply String.eqb_eq | exact Vmail].
  - unfold uniqueKeys. destruct (updated_keys e true i db) as [-> ->].
    split; assumption.
Qed.

Lemma accountById_app_kept (db rows : Table) (i : string) (u : UserData) :
  accountById db i = Some u -> accountById (db ++ rows)%list i = Some u.
Proof.
  rewrite !accountById_filter, filter_app.
  destruct (filter _ db); [discriminate | trivial].
Qed.

Lemma accountById_updated (e : Env) (v : bool) (i j : string) (db : Table)
    (u : UserData) :
  accountById db j = Some u ->
  exists u', accountById (Sql.updated e v i db) j = Some u'
             /\ sameIdentity u u'
             /\ enrolled u' = (if String.eqb j i then v else enrolled u).
Proof.
  rewrite !accountById_filter, filter_updated.
  destruct (filter _ db) as [| r rows] eqn:F; [discriminate |].
  intros [= <-]. cbn [map].
  assert (Hr : String.eqb (row_id r) j = true).
  { assert (Hin : In r (filter (fun r => String.eqb (row_id r) j) db))
      by (rewrite F; left; reflexivity).
    apply filter_In in Hin. apply Hin. }
  apply String.eqb_eq in Hr. subst j.
  eexists. split; [reflexivity |].
  destruct (String.eqb (row_id r) i); repeat split.
Qed.

(** X5. No request deletes an account or rewrites its identity. Over
    any sequence of requests, an account that [User.findById] resolves
    is still resolved afterwards, with the same identifier, email,
    password hash and creation time; its enrolled flag, once true,
    is still true. *)
Theorem accounts_never_deleted
    (rs : list (Env * Request)) (db : Table) (i : string) (u : UserData) :
  accountById db i = Some u ->
  exists u',
    accountById (serve_all rs db) i = Some u'
    /\ sameIdentity u u'
    /\ (enrolled u = true -> enrolled u' = true).
Proof.
  revert db u. induction rs as [| [e r] rs IH]; intros db u Hu; cbn [serve_all].
  - exists u. repeat split; trivial.
  - assert (Step : exists u1,
               accountById (fst (serve (route e r) db)) i = Some u1
               /\ sameIdentity u u1
               /\ (enrolled u = true -> enrolled u1 = true)).
    { destruct (route_effect e r db) as [-> | [[row [-> _]] | [j ->]]].
      - exists u. repeat split; trivial.
      - exists u. split; [now apply accountById_app_kept | repeat split; trivial].
      - destruct (accountById_updated e true j i db u Hu) as [u1 [H1 [H2 H3]]].
        exists u1. split; [exact H1 | split; [exact H2 |]].
        intros He. rewrite H3. destruct (String.eqb i j); trivial. }
    destruct Step as [u1 [H1 [[Ha [Hb [Hc Hd]]] He]]].
    destruct (IH _ u1 H1) as [u' [H' [[Ha' [Hb' [Hc' Hd']]] He']]].
    exists u'. split; [exact H' |].
    split; [repeat split; congruence | auto].
Qed.

(** X6. Every email that the API has stored is lower-cased: starting
    from the empty table, after any sequence of requests each stored
    email is a fixed point of [toLowerCase], provided lower-casing a
    lower-cased string changes nothing. *)
Theorem stored_emails_are_lowercased (rs : list (Env * Request)) :
  (forall s, toLowerCase (toLowerCase s) = toLowerCase s) ->
  lowercased toLowerCase (serve_all rs []).
Proof.
  intros Hidem.
  assert (G : forall db, lowercased toLowerCase db ->
                         lowercased toLowerCase (serve_all rs db)).
  { induction rs as [| [e r] rs IH]; intros db Hl; cbn [serve_all]; [exact Hl |].
    apply IH. now apply lowercased_preserved. }
  apply G. constructor.
Qed.

(* ===================================================================== *)
(** * Registration, then login *)
(* ===================================================================== *)




(* ===================================================================== *)
(** * The answers of the API *)
(* ===================================================================== *)

(** X9. Every request, a registration taken with an email and a
    password hash that fit their columns, is answered, once, with
    status 200, 201, 400, 401 or 500. Status 201 comes from a
    registration only and 401 from a login only. Status 500 carries
    'Internal server error', leaves the table as it was, and has one of
    three causes: a protected route reached without an account on the
    request, a registration or login whose email the database refuses
    as the parameter of the lookup, or a registration whose insertion
    the database refuses. *)
Theorem every_request_is_answered (e : Env) (r : Request) (db : Table) :
  fitsColumns e r ->
  exists resp,
    snd (serve (route e r) db) = Some resp
    /\ In (status resp) [200; 201; 400; 401; 500]
    /\ (status resp = 201 -> exists req, r = PostRegister req)
    /\ (status resp = 401 -> exists req, r = PostLogin req)
    /\ (status resp = 500 ->
        json resp = ErrorJson "Internal server error"
        /\ fst (serve (route e r) db) = db
        /\ (lacksAccount r \/ lookupRefused r \/ insertionRefused e r db)).
Proof.
  intros Hfits.
  destruct r as [req | req | req | req | req]; cbn [route].
  - destruct (JS.truthy_string (reg_email (body req))
              && JS.truthy_string (reg_password (body req))) eqn:F.
    + apply andb_prop in F as [He Hp]. rewrite (register_runs e req db He Hp).
      destruct (accountOf toLowerCase db _).
      * eexists. split; [reflexivity |]. cbn. intuition (try discriminate; try lia).
      * cbn zeta. destruct (Sql.refused db _) eqn:R.
        -- eexists. split; [reflexivity |]. cbn.
           intuition (try discriminate; try lia; eauto).
        -- eexists. split; [reflexivity |]. cbn.
           intuition (try discriminate; try lia; eauto).
    + rewrite (register_needs_fields e req db F).
      eexists. split; [reflexivity |]. cbn. intuition (try discriminate; try lia).
  - destruct (JS.truthy_string (login_email (body req))
              && JS.truthy_string (login_password (body req))) eqn:F.
    + apply andb_prop in F as [He Hp]. rewrite (login_runs e req db He Hp).
      eexists. split; [reflexivity |].
      destruct (accountOf toLowerCase db _) as [u |];
        [destruct (bcrypt_compare _ (passwordHash u)) |
         destruct (Sql.hasNul _) eqn:N];
        cbn; intuition (try discriminate; try lia; eauto).
    + rewrite (login_needs_fields e req db F).
      eexists. split; [reflexivity |]. cbn. intuition (try discriminate; try lia).
  - destruct req as [b [u |]].
    + rewrite verifyBiometric_runs. eexists. split; [reflexivity |].
      unfold Policy.decide.
      destruct (JS.truthy_string (csid b)), (JS.truthy_bool (videoValidated b)),
        (Regex.uuidRegex_test (JS.to_string (csid b))), (enrolled u);
        cbn; intuition (try discriminate; try lia).
    + eexists. split; [reflexivity |]. cbn. intuition (try discriminate; try lia).
  - destruct req as [b [u |]].
    + destruct (JS.truthy_string (enroll_csid b)) eqn:Hc.
      * rewrite (completeEnrollment_runs e u b db Hc).
        eexists. split; [reflexivity |]. cbn. intuition (try discriminate; try lia).
      * rewrite (completeEnrollment_rejects e u b db Hc).
        eexists. split; [reflexivity |]. cbn. intuition (try discriminate; try lia).
    + eexists. split; [reflexivity |]. cbn. intuition (try discriminate; try lia).
  - destruct req as [b [u |]];
      (eexists; split; [reflexivity |]; cbn; intuition (try discriminate; try lia)).
Qed.

(* ===================================================================== *)
(** * Enrollment, then verification and login *)
(* ===================================================================== *)

Lemma filter_email_updated (e : Env) (v : bool) (i mail : string) (db : Table) :
  filter (fun r => String.eqb (row_email r) mail) (Sql.updated e v i db)
  = map (fun r => if String.eqb (row_id r) i then Sql.set_enrolled e v r else r)
        (filter (fun r => String.eqb (row_email r) mail) db).
Proof.
  unfold Sql.updated.
  induction db as [| r db IH]; [reflexivity |].
  cbn [map filter].
  assert (E : row_email (if String.eqb (row_id r) i then Sql.set_enrolled e v r else r)
              = row_email r) by (destruct (String.eqb (row_id r) i); reflexivity).
  rewrite E. destruct (String.eqb (row_email r) mail); cbn [map]; now rewrite IH.
Qed.

(** X21. Enrollment opens verification. For a stored account, once an
    enrollment completion with any session identifier that is present
    has been served, the account as [User.findById] then resolves it is
    enrolled, and a verification request carrying it, a UUID-shaped
    session identifier and a true liveness flag is accepted; the same
    request carrying the account as it was before, not enrolled, is
    still refused. *)
Theorem enroll_then_verify
    (e : Env) (u : UserData) (enrollBody : EnrollCompleteRequest)
    (verifyBody : BiometricVerifyRequest) (db : Table) :
  accountById db (id u) = Some u ->
  JS.truthy_string (enroll_csid enrollBody) = true ->
  JS.truthy_string (csid verifyBody) = true ->
  JS.truthy_bool (videoValidated verifyBody) = true ->
  Regex.uuidRegex_test (JS.to_string (csid verifyBody)) = true ->
  let db' := fst (serve (completeEnrollment e
                           {| body := enrollBody; user := Some u |}) db) in
  exists u',
    accountById db' (id u) = Some u'
    /\ sameIdentity u u'
    /\ enrolled u' = true
    /\ serve (verifyBiometric {| body := verifyBody; user := Some u' |}) db'
       = (db', Some (Policy.response Policy.Accept))
    /\ (enrolled u = false ->
        serve (verifyBiometric {| body := verifyBody; user := Some u |}) db'
        = (db', Some (Policy.response Policy.MustEnrollFirst))).
Proof.
  intros Hu Hc Hv Hl Hs db'. subst db'.
  rewrite (completeEnrollment_runs e u enrollBody db Hc). cbn [fst].
  destruct (accountById_updated e true (id u) (id u) db u Hu) as [u' [H1 [H2 H3]]].
  rewrite String.eqb_refl in H3.
  exists u'. split; [exact H1 |]. split; [exact H2 |]. split; [exact H3 |].
  rewrite !verifyBiometric_runs. unfold Policy.decide.
  rewrite Hv, Hl, Hs, H3. cbn.
  split; [reflexivity |]. intros ->. reflexivity.
Qed.

(** X22. A login after enrollment reports it. For an account that
    [User.findByEmail] resolves, once an enrollment completion for it
    has been served, a login with its email and a matching password is
    answered 200 with [user.enrolled = true]. *)
Theorem enroll_then_login
    (e1 e2 : Env) (u : UserData) (enrollBody : EnrollCompleteRequest)
    (loginReq : AuthRequest LoginRequest) (db : Table) :
  JS.truthy_string (enroll_csid enrollBody) = true ->
  JS.truthy_string (login_email (body loginReq)) = true ->
  JS.truthy_string (login_password (body loginReq)) = true ->
  accountOf toLowerCase db (JS.to_string (login_email (body loginReq))) = Some u ->
  bcrypt_compare (JS.to_string (login_password (body loginReq))) (passwordHash u)
  = true ->
  let db' := fst (serve (completeEnrollment e1
                           {| body := enrollBody; user := Some u |}) db) in
  let u' := {| id := id u; email := email u; passwordHash := passwordHash u;
               enrolled := true; createdAt := createdAt u |} in
  serve (login e2 loginReq) db'
  = (db', Some {| status := 200;
                  json := AuthJson "Login successful" (public u')
                            (sign_token e2 u') |})
  /\ pu_enrolled (public u') = true.
Proof.
  intros Hc He Hp Hfound Hpw db' u'. subst db'.
  rewrite (completeEnrollment_runs e1 u enrollBody db Hc). cbn [fst].
  rewrite (login_runs e2 loginReq _ He Hp).
  rewrite accountOf_filter in Hfound. rewrite accountOf_filter, filter_email_updated.
  destruct (filter _ db) as [| r rows]; [discriminate |].
  injection Hfound as <-. cbn [map User.of_row id].
  rewrite String.eqb_refl. cbn [User.of_row Sql.set_enrolled row_id row_email
    row_password_hash row_enrolled row_created_at passwordHash].
  cbn [User.of_row passwordHash] in Hpw. rewrite Hpw.
  split; reflexivity.
Qed.

End Controller.

(* ===================================================================== *)
(** * The account properties on concrete requests *)
(* ===================================================================== *)

Lemma enrolled_flag_never_reversed_witness :
  let requests :=
    [ (Sample.env,
       PostRegister {| body := {| reg_email := Some "Bob@Example.com";
                                  reg_password := Some "hunter22" |};
                       user := None |});
      (Sample.later,
       PostEnrollComplete {| body := {| enroll_csid := None |};
                             user := Some (Sample.alice true) |});
      (Sample.later,
       PostLogin {| body := {| login_email := Some "alice@example.com";
                               login_password := Some "wrong" |};
                    user := None |}) ] in
  enrolledOf (serve_all Sample.toLowerCase Sample.bcrypt_hash
                Sample.bcrypt_compare Sample.jwt_sign Sample.JWT_SECRET
                requests [Sample.aliceRow true])
             (id (Sample.alice true))
  = Some true.
Proof.
  intros requests.
  apply (proj2 (proj2 (proj2
           (@enrolled_flag_never_reversed Sample.toLowerCase Sample.bcrypt_hash
              Sample.bcrypt_compare Sample.jwt_sign Sample.JWT_SECRET)))).
  reflexivity.
Defined.





(** The walk through the API that the specification gives as an
    example: register, complete the enrollment, log in, verify with
    the liveness flag set and then without it. *)
Example end_to_end :
  let registerBob :=
    serve (register Sample.toLowerCase Sample.bcrypt_hash Sample.jwt_sign
             Sample.JWT_SECRET Sample.env
             {| body := {| reg_email := Some "bob@example.com";
                           reg_password := Some "password123" |};
                user := None |}) [] in
  let bob enrolled :=
    {| id := fresh_id Sample.env;
       email := "bob@example.com";
       passwordHash := Sample.bcrypt_hash "password123" 10 (salt Sample.env);
       enrolled := enrolled;
       createdAt := now Sample.env |} in
  let enroll :=
    serve (completeEnrollment Sample.later
             {| body := {| enroll_csid := Some Sample.uuid |};
                user := Some (bob false) |}) (fst registerBob) in
  let logIn :=
    serve (login Sample.toLowerCase Sample.bcrypt_compare Sample.jwt_sign
             Sample.JWT_SECRET Sample.later
             {| body := {| login_email := Some "bob@example.com";
                           login_password := Some "password123" |};
                user := None |}) (fst enroll) in
  let verify flag :=
    serve (verifyBiometric
             {| body := {| csid := Some Sample.uuid; actionID := Some "login";
                           videoValidated := Some flag |};
                user := Some (bob true) |}) (fst logIn) in
  snd registerBob
  = Some {| status := 201;
            json := AuthJson "User registered successfully" (public (bob false))
                      (sign_token Sample.jwt_sign Sample.JWT_SECRET Sample.env
                         (bob false)) |}
  /\ snd enroll = Some enrollmentCompleted
  /\ enrolledOf (fst enroll) (fresh_id Sample.env) = Some true
  /\ snd logIn
     = Some {| status := 200;
               json := AuthJson "Login successful" (public (bob true))
                         (sign_token Sample.jwt_sign Sample.JWT_SECRET
                            Sample.later (bob true)) |}
  /\ snd (verify true) = Some (Policy.response Policy.Accept)
  /\ snd (verify false) = Some (Policy.response Policy.VideoValidationRequired).
Proof. repeat split. Qed.

(** The shape test on session identifiers. *)
Example uuid_shapes :
  Regex.uuidRegex_test "123e4567-e89b-42d3-a456-426614174000" = true
  /\ Regex.uuidRegex_test "123E4567-E89B-42D3-A456-426614174000" = true
  /\ Regex.uuidRegex_test "123e4567e89b42d3a456426614174000" = false
  /\ Regex.uuidRegex_test "123e4567-e89b-42d3-a456-426614174000 " = false
  /\ Regex.uuidRegex_test "g23e4567-e89b-42d3-a456-426614174000" = false
  /\ Regex.uuidRegex_test "" = false.
Proof. repeat split. Qed.

(* ===================================================================== *)
(** * The sampling loop *)
(* ===================================================================== *)

Import Login.
Local Open Scope list_scope.
Unset Implicit Arguments.

Lemma tick_valid (st : Counters) (c : Container) :
  isValidCapture (signals c) = true ->
  tick st (Some c)
  = if (maxAttempts <=? captureAttempts st + 1)
       && (validCaptureCount st + 1 <? requiredValidCaptures)
    then BudgetExhausted
    else if requiredValidCaptures <=? validCaptureCount st + 1
         then StreakReached (finalValidation (signals c) c)
         else KeepSampling {| captureAttempts := captureAttempts st + 1;
                              validCaptureCount := validCaptureCount st + 1 |}.
Proof.
  intros Hv. unfold tick. rewrite Hv. cbn [negb].
  rewrite andb_false_r. reflexivity.
Qed.

Lemma tick_invalid (st : Counters) (c : Container) :
  isValidCapture (signals c) = false ->
  tick st (Some c)
  = if maxAttempts <=? captureAttempts st + 1
    then BudgetExhausted
    else KeepSampling {| captureAttempts := captureAttempts st + 1;
                         validCaptureCount := 0 |}.
Proof.
  intros Hv. unfold tick. rewrite Hv.
  destruct (maxAttempts <=? captureAttempts st + 1); reflexivity.
Qed.

Ltac bools :=
  repeat match goal with
         | H : context [(?a <=? ?b)] |- _ => destruct (Z.leb_spec a b)
         | |- context [(?a <=? ?b)] => destruct (Z.leb_spec a b)
         | H : context [(?a <? ?b)] |- _ => destruct (Z.ltb_spec a b)
         | |- context [(?a <? ?b)] => destruct (Z.ltb_spec a b)
         end;
  cbn [andb orb negb] in *.

(** Once the valid samples still missing all arrive, and the budget
    allows for them, the streak is reached. *)
Lemma streak_completes (run rest : list Container) (st : Counters) :
  Forall validCapture run ->
  0 <= validCaptureCount st < requiredValidCaptures ->
  requiredValidCaptures <= validCaptureCount st + Z.of_nat (List.length run) ->
  captureAttempts st + (requiredValidCaptures - validCaptureCount st)
    <= maxAttempts ->
  passesStreak (sample st (map Some (run ++ rest))) = true.
Proof.
  unfold maxAttempts, requiredValidCaptures.
  intros Hrun. revert st.
  induction Hrun as [| c run Hc _ IH]; intros st Hn Hlen Hbudget.
  - cbn in Hlen. lia.
  - cbn [app map sample]. rewrite (tick_valid st c Hc).
    unfold maxAttempts, requiredValidCaptures. bools; try lia; try reflexivity.
    all: apply IH; cbn [validCaptureCount captureAttempts];
      rewrite ?length_cons, ?Nat2Z.inj_succ in *; lia.
Qed.

(** Whatever comes before a streak, valid or not, the streak is reached
    as long as it ends within the budget. *)
Lemma streak_after_any_prefix (pre run rest : list Container) (st : Counters) :
  Forall validCapture run ->
  Z.of_nat (List.length run) = requiredValidCaptures ->
  0 <= validCaptureCount st < requiredValidCaptures ->
  captureAttempts st + Z.of_nat (List.length pre) + requiredValidCaptures
    <= maxAttempts ->
  passesStreak (sample st (map Some (pre ++ run ++ rest))) = true.
Proof.
  unfold maxAttempts, requiredValidCaptures.
  intros Hrun Hlen. revert st.
  induction pre as [| c pre IH]; intros st Hn Hbudget.
  - cbn [app]. apply streak_completes; trivial;
      unfold maxAttempts, requiredValidCaptures; cbn in Hbudget; lia.
  - cbn [app map sample].
    rewrite length_cons, Nat2Z.inj_succ in Hbudget.
    destruct (isValidCapture (signals c)) eqn:Hc.
    + rewrite (tick_valid st c Hc).
      unfold maxAttempts, requiredValidCaptures. bools; try lia; try reflexivity.
      all: apply IH; cbn [validCaptureCount captureAttempts]; lia.
    + rewrite (tick_invalid st c Hc).
      unfold maxAttempts. bools; try lia.
      all: apply IH; cbn [validCaptureCount captureAttempts]; lia.
Qed.

(** The loop passes the streak check only on a streak: [seen] is what
    was sampled so far, its last [validCaptureCount] samples valid. *)
Lemma streak_needed (todo seen recent : list Container) (st : Counters) :
  captureAttempts st = Z.of_nat (List.length (seen ++ recent)) ->
  validCaptureCount st = Z.of_nat (List.length recent) ->
  Forall validCapture recent ->
  validCaptureCount st < requiredValidCaptures ->
  captureAttempts st < maxAttempts ->
  passesStreak (sample st (map Some todo)) = true ->
  exists pre run rest,
    ((seen ++ recent) ++ todo = pre ++ run ++ rest)%list
    /\ Z.of_nat (List.length run) = requiredValidCaptures
    /\ Forall validCapture run
    /\ Z.of_nat (List.length pre) + requiredValidCaptures <= maxAttempts.
Proof.
  unfold maxAttempts, requiredValidCaptures.
  revert seen recent st.
  induction todo as [| c todo IH]; intros seen recent st Ha Hn Hrec Hlt Hbud Hpass.
  - discriminate.
  - cbn [map sample] in Hpass.
    rewrite length_app, Nat2Z.inj_add in Ha.
    destruct (isValidCapture (signals c)) eqn:Hc.
    + rewrite (tick_valid st c Hc) in Hpass.
      unfold maxAttempts, requiredValidCaptures in Hpass.
      destruct ((30 <=? captureAttempts st + 1)
                && (validCaptureCount st + 1 <? 20)) eqn:B; [discriminate |].
      destruct (20 <=? validCaptureCount st + 1) eqn:S.
      * exists seen, (recent ++ [c])%list, todo.
        apply Z.leb_le in S.
        repeat split.
        -- rewrite <- !app_assoc. reflexivity.
        -- rewrite length_app, Nat2Z.inj_add. cbn. lia.
        -- apply Forall_app. split; [exact Hrec | constructor; [exact Hc | constructor]].
        -- lia.
      * apply Z.leb_gt in S.
        assert (Hnext : captureAttempts st + 1 < 30).
        { apply andb_false_iff in B as [B | B];
            [apply Z.leb_gt in B | apply Z.ltb_ge in B]; lia. }
        destruct (IH seen (recent ++ [c])
                    {| captureAttempts := captureAttempts st + 1;
                       validCaptureCount := validCaptureCount st + 1 |})
          as [pre [run [rest [E R]]]].
        -- cbn [captureAttempts]. rewrite !length_app, !Nat2Z.inj_add. cbn. lia.
        -- cbn [validCaptureCount]. rewrite length_app, Nat2Z.inj_add. cbn. lia.
        -- apply Forall_app. split; [exact Hrec | constructor; [exact Hc | constructor]].
        -- cbn [validCaptureCount]. lia.
        -- cbn [captureAttempts]. lia.
        -- exact Hpass.
        -- exists pre, run, rest. split; [| exact R].
           rewrite <- E. rewrite <- !app_assoc. reflexivity.
    + rewrite (tick_invalid st c Hc) in Hpass.
      unfold maxAttempts in Hpass.
      destruct (30 <=? captureAttempts st + 1) eqn:B; [discriminate |].
      apply Z.leb_gt in B.
      destruct (IH ((seen ++ recent) ++ [c]) []
                  {| captureAttempts := captureAttempts st + 1;
                     validCaptureCount := 0 |})
        as [pre [run [rest [E R]]]].
      * cbn [captureAttempts]. rewrite app_nil_r, !length_app, !Nat2Z.inj_add.
        cbn. lia.
      * reflexivity.
      * constructor.
      * cbn [validCaptureCount]. lia.
      * cbn [captureAttempts]. lia.
      * exact Hpass.
      * exists pre, run, rest. split; [| exact R].
        rewrite <- E. rewrite app_nil_r, <- !app_assoc. reflexivity.
Qed.

(** The loop stops within the budget. *)
Lemma budget_bounds_loop (todo : list Container) (st : Counters) :
  captureAttempts st < maxAttempts ->
  validCaptureCount st < requiredValidCaptures ->
  maxAttempts <= captureAttempts st + Z.of_nat (List.length todo) ->
  sample st (map Some todo) = Some BudgetExhausted
  \/ exists v, sample st (map Some todo) = Some (StreakReached v).
Proof.
  unfold maxAttempts, requiredValidCaptures.
  revert st. induction todo as [| c todo IH]; intros st Ha Hn Hlen.
  - cbn in Hlen. lia.
  - cbn [map sample]. rewrite length_cons, Nat2Z.inj_succ in Hlen.
    destruct (isValidCapture (signals c)) eqn:Hc.
    + rewrite (tick_valid st c Hc).
      unfold maxAttempts, requiredValidCaptures. bools; eauto; try lia.
      all: apply IH; cbn [validCaptureCount captureAttempts]; lia.
    + rewrite (tick_invalid st c Hc).
      unfold maxAttempts. bools; eauto.
      apply IH; cbn [validCaptureCount captureAttempts]; lia.
Qed.

(** C2. An invalid sample puts the counter of consecutive valid samples
    back to zero. While the container stays mounted, the loop passes the
    streak check exactly when 20 consecutive valid samples arrive before
    the budget of 30 samples is used up, whatever the samples before
    that streak were; a loop that has taken 30 samples without passing
    has failed for lack of valid captures. *)
Theorem streak_needs_twenty_consecutive_valid_samples :
  (forall st c,
      isValidCapture (signals c) = false ->
      tick st (Some c)
      = if maxAttempts <=? captureAttempts st + 1
        then BudgetExhausted
        else KeepSampling {| captureAttempts := captureAttempts st + 1;
                             validCaptureCount := 0 |})
  /\ (forall cs,
        passesStreak (sample start (map Some cs)) = true
        <-> exists pre run rest,
              cs = pre ++ run ++ rest
              /\ Z.of_nat (List.length run) = requiredValidCaptures
              /\ Forall validCapture run
              /\ Z.of_nat (List.length pre) + requiredValidCaptures <= maxAttempts)
  /\ (forall cs,
        maxAttempts <= Z.of_nat (List.length cs) ->
        passesStreak (sample start (map Some cs)) = false ->
        sample start (map Some cs) = Some BudgetExhausted).
Proof.
  split; [exact tick_invalid |].
  split.
  - intros cs. split.
    + intros Hpass.
      assert (Hstreak := @streak_needed cs [] [] start).
      cbn [app List.length start captureAttempts validCaptureCount] in Hstreak.
      apply Hstreak; trivial.
      * unfold requiredValidCaptures. lia.
      * unfold maxAttempts. lia.
    + intros [pre [run [rest [-> [Hlen [Hrun Hbud]]]]]].
      apply streak_after_any_prefix; trivial.
      cbn. unfold requiredValidCaptures. lia.
  - intros cs Hlen Hpass.
    destruct (budget_bounds_loop cs start) as [E | [v E]].
    + unfold maxAttempts. cbn. lia.
    + unfold requiredValidCaptures. cbn. lia.
    + cbn [start captureAttempts]. lia.
    + exact E.
    + rewrite E in Hpass. discriminate.
Qed.

(** Ten samples without a video element, then twenty valid ones: the
    streak check passes at the thirtieth sample. *)
Lemma streak_needs_twenty_consecutive_valid_samples_witness :
  passesStreak
    (sample start
       (map Some (repeat Sample.noVideo 10
                  ++ repeat (Sample.camera 640 480 []) 20
                  ++ [])))
  = true.
Proof.
  apply (proj2 (proj1 (proj2
           streak_needs_twenty_consecutive_valid_samples) _)).
  exists (repeat Sample.noVideo 10), (repeat (Sample.camera 640 480 []) 20), [].
  split; [reflexivity |].
  split; [reflexivity |].
  split; [| vm_compute; discriminate].
  apply Forall_forall. intros c Hc. apply repeat_spec in Hc. subst c. reflexivity.
Defined.

(** Eleven samples without a video element leave no room for a streak. *)
Example streak_too_late :
  sample start
    (map Some (repeat Sample.noVideo 11 ++ repeat (Sample.camera 640 480 []) 20))
  = Some BudgetExhausted.
Proof. reflexivity. Qed.

(** Losing the container stops the loop at once. *)
Example container_lost_stops_loop (st : Counters) (rest : list Snapshot) :
  sample st (None :: rest) = Some ContainerLost.
Proof. reflexivity. Qed.

(* ===================================================================== *)
(** * The content check *)
(* ===================================================================== *)

Lemma count_by_fold (p : Z -> bool) (l : list Z) (n : Z) :
  fold_left (fun n i => if p i then n + 1 else n) l n
  = n + Z.of_nat (List.length (filter p l)).
Proof.
  revert n. induction l as [| i l IH]; intros n; cbn [fold_left filter].
  - cbn. lia.
  - rewrite IH. destruct (p i); cbn [List.length]; lia.
Qed.

Lemma item_shift (r g b a : Z) (rest : list Z) (i : Z) :
  0 <= i -> item (r :: g :: b :: a :: rest) (4 + i) = item rest i.
Proof.
  intros Hi. unfold item.
  destruct (Z.ltb_spec (4 + i) 0); [lia |].
  destruct (Z.ltb_spec i 0); [lia |].
  replace (Z.to_nat (4 + i)) with (S (S (S (S (Z.to_nat i))))) by lia.
  reflexivity.
Qed.

Lemma nonBlackAt_head (r g b a : Z) (rest : list Z) :
  nonBlackAt (r :: g :: b :: a :: rest) 0 = negb (dark (r, g, b, a)).
Proof.
  unfold nonBlackAt, dark, item. cbn.
  rewrite !negb_andb, <- !Z.ltb_antisym. reflexivity.
Qed.

Lemma nonBlackAt_shift (r g b a : Z) (rest : list Z) (k : nat) :
  nonBlackAt (r :: g :: b :: a :: rest) (4 * Z.of_nat (S k))
  = nonBlackAt rest (4 * Z.of_nat k).
Proof.
  unfold nonBlackAt.
  replace (4 * Z.of_nat (S k)) with (4 + 4 * Z.of_nat k) by lia.
  rewrite <- !Z.add_assoc, !item_shift by lia. reflexivity.
Qed.

Lemma length_filter_map {A B : Type} (f : A -> B) (p : B -> bool) (l : list A) :
  List.length (filter p (map f l))
  = List.length (filter (fun x => p (f x)) l).
Proof.
  induction l as [| x l IH]; [reflexivity |].
  cbn [map filter]. destruct (p (f x)); cbn [List.length]; now rewrite IH.
Qed.

(** The loop over the byte array counts the bright pixels among the
    first [n] pixels. *)
Lemma loop_counts_bright (n : nat) (data : list Z) :
  (n <= List.length (pixels data))%nat ->
  List.length (filter (nonBlackAt data)
                 (map (fun k => 4 * Z.of_nat k) (seq 0 n)))
  = List.length (filter (fun p => negb (dark p)) (firstn n (pixels data))).
Proof.
  revert data. induction n as [| n IH]; intros data Hn; [reflexivity |].
  destruct data as [| r [| g [| b [| a rest]]]]; cbn [pixels List.length] in Hn;
    try lia.
  cbn [pixels firstn seq map filter].
  rewrite nonBlackAt_head.
  rewrite <- seq_shift, map_map.
  assert (E : List.length
                (filter (nonBlackAt (r :: g :: b :: a :: rest))
                   (map (fun k => 4 * Z.of_nat (S k)) (seq 0 n)))
              = List.length
                  (filter (fun p => negb (dark p)) (firstn n (pixels rest)))).
  { rewrite length_filter_map.
    rewrite (filter_ext _ (fun k => nonBlackAt rest (4 * Z.of_nat k)))
      by (intros k; apply nonBlackAt_shift).
    rewrite <- (length_filter_map (fun k => 4 * Z.of_nat k) (nonBlackAt rest)).
    apply IH. lia. }
  destruct (negb (dark (r, g, b, a))); cbn [List.length]; now rewrite E.
Qed.

Lemma pixels_length (data : list Z) (m : nat) :
  List.length data = (4 * m)%nat -> List.length (pixels data) = m.
Proof.
  revert data. induction m as [| m IH]; intros data Hlen.
  - destruct data; [reflexivity | discriminate].
  - destruct data as [| r [| g [| b [| a rest]]]]; cbn [List.length] in Hlen;
      try lia.
    cbn [pixels List.length]. f_equal. apply IH. lia.
Qed.

Lemma sampleSize_pixels (data : list Z) (m : nat) :
  List.length data = (4 * m)%nat ->
  sampleSize data = 4 * Z.of_nat (List.length (sampledPixels data))
  /\ List.length (sampledPixels data) = Nat.min m (Z.to_nat 2500).
Proof.
  intros Hlen. unfold sampleSize, sampledPixels.
  rewrite length_firstn, (pixels_length data m Hlen), Hlen. lia.
Qed.

Lemma firstn_length_firstn {A : Type} (k : nat) (l : list A) :
  firstn (List.length (firstn k l)) l = firstn k l.
Proof.
  rewrite length_firstn.
  destruct (Nat.min_spec k (List.length l)) as [[_ ->] | [Hle ->]];
    [reflexivity |].
  rewrite !firstn_all2; [reflexivity | lia | lia].
Qed.

Lemma nonBlackPixels_counts_bright (data : list Z) (m : nat) :
  List.length data = (4 * m)%nat ->
  nonBlackPixels data = countBright (sampledPixels data).
Proof.
  intros Hlen. unfold nonBlackPixels, loopIndices, countBright.
  destruct (sampleSize_pixels data m Hlen) as [Hs Hl].
  rewrite count_by_fold, Z.add_0_l. f_equal.
  rewrite Hs.
  replace (Z.to_nat ((4 * Z.of_nat (List.length (sampledPixels data)) + 3) / 4))
    with (List.length (sampledPixels data)).
  2:{ replace (4 * Z.of_nat (List.length (sampledPixels data)) + 3)
        with (3 + Z.of_nat (List.length (sampledPixels data)) * 4) by lia.
      rewrite Z.div_add by lia. cbn. lia. }
  rewrite loop_counts_bright.
  - unfold sampledPixels. rewrite firstn_length_firstn. reflexivity.
  - unfold sampledPixels. rewrite length_firstn. lia.
Qed.

(** The comparison of the ratio with 0.05, over the integers. *)
Lemma ratio_below_threshold (bright sampled : Z) :
  0 < sampled ->
  ((inject_Z bright / (inject_Z (4 * sampled) / 4) ?= 5 # 100)%Q = Lt
   <-> 20 * bright < sampled).
Proof.
  intros Hs. rewrite <- Qlt_alt.
  destruct sampled as [| p | p]; try lia.
  set (below := 20 * bright < Z.pos p).
  unfold Qlt, Qdiv, Qmult, Qinv, inject_Z. cbn.
  subst below. lia.
Qed.

Lemma bright_and_dark (ps : list (Z * Z * Z * Z)) :
  countBright ps + countDark ps = Z.of_nat (List.length ps).
Proof.
  unfold countBright, countDark.
  induction ps as [| p ps IH]; [reflexivity |].
  cbn [filter]. destruct (dark p); cbn [negb List.length]; lia.
Qed.

Lemma looksCovered_threshold (data : list Z) (m : nat) :
  List.length data = (4 * m)%nat ->
  (0 < m)%nat ->
  looksCovered data = true
  <-> 20 * countBright (sampledPixels data)
      < Z.of_nat (List.length (sampledPixels data)).
Proof.
  intros Hlen Hm.
  destruct (sampleSize_pixels data m Hlen) as [Hs Hl].
  assert (Hpos : 0 < Z.of_nat (List.length (sampledPixels data))) by lia.
  unfold looksCovered, nonBlackRatio.
  rewrite (nonBlackPixels_counts_bright data m Hlen), Hs.
  destruct (Z.eqb_spec (4 * Z.of_nat (List.length (sampledPixels data))) 0);
    [lia |].
  rewrite <- (ratio_below_threshold (countBright (sampledPixels data)) _ Hpos).
  destruct (_ ?= _)%Q; split; congruence.
Qed.

(** The verdict of a tick that reaches the streak is the final
    validation of the sample it was reached on. *)
Lemma streak_verdict (st : Counters) (c : Container) (verdict : Verdict) :
  tick st (Some c) = StreakReached verdict ->
  verdict = finalValidation (signals c) c.
Proof.
  unfold tick.
  destruct (_ && _); [discriminate |].
  destruct (_ <=? _); [| discriminate].
  now intros [= <-].
Qed.

Ltac rejected := eexists; reflexivity.

(** The final validation never lets a frame through that the content
    check finds covered. *)
Lemma covered_frame_rejected (c : Container) (v : VideoElement) (data : list Z) :
  video c = Some v ->
  canvas v = ImageData data ->
  looksCovered data = true ->
  exists error, finalValidation (signals c) c = Rejected error.
Proof.
  intros Hv Hcanvas Hcov.
  unfold finalValidation, signals. rewrite Hv.
  destruct (negb (paused v) && negb (ended v) && (2 <=? readyState v));
    destruct (srcObject v) as [stream |] eqn:Hsrc;
    cbn [hasVideo isPlaying hasActiveStream hasVideoTracks];
    try rejected.
  destruct (active stream); [| rejected].
  destruct (filter live (getVideoTracks stream)) as [| track others] eqn:Hlive;
    [rejected |].
  destruct (inspectTrack v track) eqn:Hins; [| rejected].
  cbn [negb orb].
  destruct ((videoWidth v =? 0) || (videoHeight v =? 0)) eqn:Hzero; [rejected |].
  unfold validateContent. rewrite Hsrc.
  destruct (find live (getVideoTracks stream)) as [liveTrack |]; [| rejected].
  destruct (muted liveTrack || negb (track_enabled liveTrack)); [rejected |].
  rewrite Hcanvas, Hcov. cbn [contextAvailable andb].
  destruct ((0 <? videoWidth v) && (0 <? videoHeight v)) eqn:Hdims; [rejected |].
  exfalso.
  apply orb_false_elim in Hzero as [Hw Hh].
  unfold inspectTrack in Hins. rewrite Hw, Hh, Hdims in Hins.
  cbn [negb andb] in Hins. rewrite !andb_true_r in Hins.
  destruct (getCapabilities_throws track); [discriminate |].
  destruct (if JS.truthy_number (settings_width track)
                && JS.truthy_number (settings_height track)
            then JS.gt (settings_width track) 0 && JS.gt (settings_height track) 0
            else negb (muted track) && track_enabled track); discriminate.
Qed.

(** C3, as the code has it. The content check reads the first
    [min(w * h, 2500)] pixels of the frame, counts as non-black those
    with a colour channel above 30, and rejects the frame exactly when
    the non-black ones are strictly fewer than 5% of the pixels read.
    So a frame fails the check as soon as more than 95% of the pixels
    read are at or below 30 on the three channels, and an attempt whose
    streak was reached on such a frame is never validated, whatever the
    stream metadata is. *)
Theorem covered_camera_check (data : list Z) (width height : Z) :
  0 < width ->
  0 < height ->
  Z.of_nat (List.length data) = 4 * (width * height) ->
  let sampled := sampledPixels data in
  Z.of_nat (List.length sampled) = Z.min (width * height) 2500
  /\ nonBlackPixels data = countBright sampled
  /\ countBright sampled + countDark sampled = Z.of_nat (List.length sampled)
  /\ (looksCovered data = true
      <-> 20 * countBright sampled < Z.of_nat (List.length sampled))
  /\ (95 * Z.of_nat (List.length sampled) < 100 * countDark sampled ->
      looksCovered data = true
      /\ forall st c v verdict,
           video c = Some v ->
           canvas v = ImageData data ->
           tick st (Some c) = StreakReached verdict ->
           exists error, verdict = Rejected error).
Proof.
  intros Hw Hh Hsize sampled. subst sampled.
  assert (Hlen : List.length data = (4 * Z.to_nat (width * height))%nat) by nia.
  assert (Hm : (0 < Z.to_nat (width * height))%nat) by nia.
  split; [destruct (sampleSize_pixels data _ Hlen) as [_ ->]; nia |].
  split; [apply (nonBlackPixels_counts_bright data _ Hlen) |].
  split; [apply bright_and_dark |].
  split; [apply (looksCovered_threshold data _ Hlen Hm) |].
  intros Hdark.
  assert (Hcov : looksCovered data = true).
  { apply (looksCovered_threshold data _ Hlen Hm).
    pose proof (bright_and_dark (sampledPixels data)). lia. }
  split; [exact Hcov |].
  intros st c v verdict Hv Hcanvas Htick.
  rewrite (streak_verdict st c verdict Htick).
  exact (covered_frame_rejected c v data Hv Hcanvas Hcov).
Qed.

(** A 100 x 100 frame with 100 white pixels: 4% of the pixels read are
    non-black, and the attempt is rejected. *)
Lemma covered_camera_check_witness :
  looksCovered Sample.nearlyBlack = true
  /\ forall st c v verdict,
       video c = Some v ->
       canvas v = ImageData Sample.nearlyBlack ->
       tick st (Some c) = StreakReached verdict ->
       exists error, verdict = Rejected error.
Proof.
  refine (proj2 (proj2 (proj2 (proj2
            (covered_camera_check Sample.nearlyBlack 100 100 _ _ _)))) _).
  - lia.
  - lia.
  - vm_compute. reflexivity.
  - vm_compute. reflexivity.
Defined.

(** Counterexample to C3 as the specification words it. In a
    100 x 100 frame whose first 125 pixels are white and whose 9875
    others are black, 98.75% of the pixels, and exactly 95% of the
    pixels read, are at or below 30 on every channel; yet the content
    check lets the frame through and the attempt is validated. *)
Lemma dark_frame_passes_content_check :
  let frame := Sample.mostlyBlack in
  95 * Z.of_nat (List.length (pixels frame)) <= 100 * countDark (pixels frame)
  /\ 95 * Z.of_nat (List.length (sampledPixels frame))
     <= 100 * countDark (sampledPixels frame)
  /\ looksCovered frame = false
  /\ tick {| captureAttempts := 19; validCaptureCount := 19 |}
          (Some (Sample.camera 100 100 frame))
     = StreakReached Validated.
Proof.
  intros frame. subst frame.
  split; [apply Z.leb_le; vm_compute; reflexivity |].
  split; [apply Z.leb_le; vm_compute; reflexivity |].
  split; vm_compute; reflexivity.
Qed.

(* ===================================================================== *)
(** * The shape of a session identifier *)
(* ===================================================================== *)

Lemma hexes_spec (n : nat) (s rest : string) :
  Regex.hexes n s = Some rest
  <-> exists h, s = (h ++ rest)%string /\ hexDigits n h.
Proof.
  revert s. induction n as [| n IH]; intros s; cbn [Regex.hexes].
  - split.
    + intros [= ->]. exists ""%string. repeat split.
    + intros [h [-> [Hlen _]]]. destruct h; [reflexivity | discriminate].
  - destruct s as [| c s].
    + split; [discriminate |].
      intros [h [Hs [Hlen _]]]. destruct h; discriminate.
    + destruct (Regex.is_hex c) eqn:Hc.
      * rewrite IH. split.
        -- intros [h [-> [Hlen Hall]]]. exists (String c h).
           split; [reflexivity |]. split; [cbn; now rewrite Hlen |].
           cbn. now rewrite Hc.
        -- intros [h [Hs [Hlen Hall]]].
           destruct h as [| c' h]; [discriminate |].
           cbn in Hs. injection Hs as <- ->.
           exists h. split; [reflexivity |].
           split; [cbn in Hlen; congruence |].
           cbn in Hall. now rewrite Hc in Hall.
      * split; [discriminate |].
        intros [h [Hs [Hlen Hall]]].
        destruct h as [| c' h]; [discriminate |].
        cbn in Hs. injection Hs as <- ->.
        cbn in Hall. rewrite Hc in Hall. discriminate.
Qed.

Lemma dash_spec (s rest : string) :
  Regex.dash s = Some rest <-> s = String "-" rest.
Proof.
  destruct s as [| c s]; cbn; [split; discriminate |].
  destruct (ascii_dec c "-") as [-> | Hc].
  - split; intros [= ->]; reflexivity.
  - split.
    + destruct c as [[] [] [] [] [] [] [] []]; try discriminate.
      contradiction Hc; reflexivity.
    + intros [= -> ->]. contradiction Hc; reflexivity.
Qed.

Lemma andThen_some (o : option string) (f : string -> option string)
    (rest : string) :
  Regex.andThen o f = Some rest <-> exists s, o = Some s /\ f s = Some rest.
Proof.
  destruct o as [s |]; cbn.
  - split; [eauto | intros [s' [[= <-] H]]; exact H].
  - split; [discriminate | intros [s' [H _]]; discriminate].
Qed.

Lemma append_empty_r (s : string) : (s ++ "")%string = s.
Proof. induction s as [| c s IH]; cbn; [reflexivity | now rewrite IH]. Qed.

Lemma length_append (s t : string) :
  String.length (s ++ t)%string = (String.length s + String.length t)%nat.
Proof. induction s as [| c s IH]; cbn; [reflexivity | now rewrite IH]. Qed.

(** X10. The session identifiers [verifyBiometric] takes as well
    formed are exactly the strings made of five groups of 8, 4, 4, 4
    and 12 hexadecimal digits, in either letter case, joined by dashes;
    they all have 36 characters. *)
Theorem uuid_shape (s : string) :
  (Regex.uuidRegex_test s = true
   <-> exists a b c d e,
         s = (a ++ "-" ++ b ++ "-" ++ c ++ "-" ++ d ++ "-" ++ e)%string
         /\ hexDigits 8 a /\ hexDigits 4 b /\ hexDigits 4 c
         /\ hexDigits 4 d /\ hexDigits 12 e)
  /\ (Regex.uuidRegex_test s = true -> String.length s = 36%nat).
Proof.
  assert (Shape : Regex.uuidRegex_test s = true
    <-> exists a b c d e,
          s = (a ++ "-" ++ b ++ "-" ++ c ++ "-" ++ d ++ "-" ++ e)%string
          /\ hexDigits 8 a /\ hexDigits 4 b /\ hexDigits 4 c
          /\ hexDigits 4 d /\ hexDigits 12 e).
  { unfold Regex.uuidRegex_test. split.
    - destruct (Regex.andThen _ _) as [[| ? ?] |] eqn:E; try discriminate.
      intros _.
      apply andThen_some in E as [s8 [E He]].
      apply andThen_some in E as [s7 [E Hd4]].
      apply andThen_some in E as [s6 [E Hd]].
      apply andThen_some in E as [s5 [E Hd3]].
      apply andThen_some in E as [s4 [E Hc]].
      apply andThen_some in E as [s3 [E Hd2]].
      apply andThen_some in E as [s2 [E Hb]].
      apply andThen_some in E as [s1 [Ha Hd1]].
      apply hexes_spec in Ha as [a [-> Ha]].
      apply dash_spec in Hd1 as ->.
      apply hexes_spec in Hb as [b [-> Hb]].
      apply dash_spec in Hd2 as ->.
      apply hexes_spec in Hc as [c [-> Hc]].
      apply dash_spec in Hd3 as ->.
      apply hexes_spec in Hd as [d [-> Hd]].
      apply dash_spec in Hd4 as ->.
      apply hexes_spec in He as [e [-> He]].
      exists a, b, c, d, e. rewrite append_empty_r. cbn [append].
      repeat split; try apply Ha; try apply Hb; try apply Hc; try apply Hd;
        try apply He.
    - intros [a [b [c [d [e [-> [Ha [Hb [Hc [Hd He]]]]]]]]]].
      assert (R : Regex.andThen (Regex.andThen (Regex.andThen (Regex.andThen
                    (Regex.andThen (Regex.andThen (Regex.andThen (Regex.andThen
                      (Regex.hexes 8
                         (a ++ "-" ++ b ++ "-" ++ c ++ "-" ++ d ++ "-" ++ e)%string)
                      Regex.dash) (Regex.hexes 4)) Regex.dash) (Regex.hexes 4))
                      Regex.dash) (Regex.hexes 4)) Regex.dash) (Regex.hexes 12)
                  = Some ""%string).
      { apply andThen_some. exists e. split.
        2:{ apply hexes_spec. exists e. now rewrite append_empty_r. }
        apply andThen_some. eexists. split; [| apply dash_spec; reflexivity].
        apply andThen_some. eexists. split.
        2:{ apply hexes_spec. exists d. split; [reflexivity | exact Hd]. }
        apply andThen_some. eexists. split; [| apply dash_spec; reflexivity].
        apply andThen_some. eexists. split.
        2:{ apply hexes_spec. exists c. split; [reflexivity | exact Hc]. }
        apply andThen_some. eexists. split; [| apply dash_spec; reflexivity].
        apply andThen_some. eexists. split.
        2:{ apply hexes_spec. exists b. split; [reflexivity | exact Hb]. }
        apply andThen_some. eexists. split; [| apply dash_spec; reflexivity].
        apply hexes_spec. exists a. split; [reflexivity | exact Ha]. }
      rewrite R. reflexivity. }
  split; [exact Shape |].
  intros Ht. apply Shape in Ht as [a [b [c [d [e [-> [Ha [Hb [Hc [Hd He]]]]]]]]]].
  destruct Ha as [Ha _], Hb as [Hb _], Hc as [Hc _], Hd as [Hd _], He as [He _].
  rewrite !length_append. cbn [String.length]. rewrite Ha, Hb, Hc, Hd, He.
  reflexivity.
Qed.

(* ===================================================================== *)
(** * The sampling loop: termination *)
(* ===================================================================== *)

Lemma tick_advances (st st' : Counters) (snap : Snapshot) :
  tick st snap = KeepSampling st' ->
  captureAttempts st' = captureAttempts st + 1
  /\ captureAttempts st' < maxAttempts.
Proof.
  destruct snap as [c |]; [| discriminate].
  destruct (isValidCapture (signals c)) eqn:Hc.
  - rewrite (tick_valid st c Hc).
    unfold maxAttempts, requiredValidCaptures.
    destruct ((30 <=? captureAttempts st + 1)
              && (validCaptureCount st + 1 <? 20)) eqn:B; [discriminate |].
    destruct (20 <=? validCaptureCount st + 1) eqn:S; [discriminate |].
    intros [= <-]. cbn [captureAttempts]. split; [reflexivity |].
    apply Z.leb_gt in S. apply andb_false_iff in B as [B | B];
      [apply Z.leb_gt in B | apply Z.ltb_ge in B]; lia.
  - rewrite (tick_invalid st c Hc). unfold maxAttempts.
    destruct (30 <=? captureAttempts st + 1) eqn:B; [discriminate |].
    intros [= <-]. cbn [captureAttempts]. apply Z.leb_gt in B. lia.
Qed.

Lemma sample_stops (snaps : list Snapshot) (st : Counters) :
  captureAttempts st < maxAttempts ->
  maxAttempts <= captureAttempts st + Z.of_nat (List.length snaps) ->
  exists stop,
    sample st snaps = Some stop
    /\ sample st (firstn (Z.to_nat (maxAttempts - captureAttempts st)) snaps)
       = Some stop.
Proof.
  revert st. induction snaps as [| snap snaps IH]; intros st Ha Hlen.
  - cbn [List.length] in Hlen. lia.
  - cbn [List.length] in Hlen. rewrite Nat2Z.inj_succ in Hlen.
    replace (Z.to_nat (maxAttempts - captureAttempts st))
      with (S (Z.to_nat (maxAttempts - (captureAttempts st + 1)))) by lia.
    cbn [firstn sample].
    destruct (tick st snap) as [st' | | | v] eqn:T; eauto.
    destruct (tick_advances st st' snap T) as [Hnext Hlt].
    rewrite <- Hnext. apply IH; lia.
Qed.

(** X11. The sampling loop stops by its thirtieth run. Whatever the
    page shows, once thirty snapshots have been taken the loop has
    stopped, with an outcome that the first thirty snapshots alone
    decide; and a loop that is still armed has run fewer than thirty
    times. *)
Theorem loop_stops_within_budget (snaps : list Snapshot) :
  (maxAttempts <= Z.of_nat (List.length snaps) ->
   exists stop,
     sample start snaps = Some stop
     /\ sample start (firstn (Z.to_nat maxAttempts) snaps) = Some stop)
  /\ (sample start snaps = None -> Z.of_nat (List.length snaps) < maxAttempts).
Proof.
  assert (A : maxAttempts <= Z.of_nat (List.length snaps) ->
              exists stop,
                sample start snaps = Some stop
                /\ sample start (firstn (Z.to_nat maxAttempts) snaps) = Some stop).
  { intros Hlen.
    destruct (sample_stops snaps start) as [stop [H1 H2]].
    - unfold maxAttempts. cbn. lia.
    - cbn [start captureAttempts]. lia.
    - exists stop. split; [exact H1 |].
      cbn [start captureAttempts] in H2. now rewrite Z.sub_0_r in H2. }
  split; [exact A |].
  intros Hnone.
  destruct (Z.lt_ge_cases (Z.of_nat (List.length snaps)) maxAttempts) as [H | H];
    [exact H |].
  destruct (A H) as [stop [Hs _]]. congruence.
Qed.

(** Once the loop has stopped, later snapshots are not read. *)
Lemma sample_after_stop (snaps more : list Snapshot) (st : Counters) (stop : Tick) :
  sample st snaps = Some stop -> sample st (snaps ++ more) = Some stop.
Proof.
  revert st. induction snaps as [| snap snaps IH]; intros st; [discriminate |].
  cbn [app sample]. destruct (tick st snap); auto.
Qed.

Lemma outcome_timing (snaps : list Snapshot) (st : Counters) :
  0 <= validCaptureCount st ->
  (sample st snaps = Some BudgetExhausted ->
   maxAttempts <= captureAttempts st + Z.of_nat (List.length snaps))
  /\ (forall v, sample st snaps = Some (StreakReached v) ->
        requiredValidCaptures
        <= validCaptureCount st + Z.of_nat (List.length snaps)).
Proof.
  unfold maxAttempts, requiredValidCaptures.
  revert st. induction snaps as [| snap snaps IH]; intros st Hn.
  - split; [discriminate | intros v; discriminate].
  - cbn [sample List.length]. rewrite Nat2Z.inj_succ.
    destruct snap as [c |]; [| split; [discriminate | intros v; discriminate]].
    destruct (isValidCapture (signals c)) eqn:Hc.
    + rewrite (tick_valid st c Hc). unfold maxAttempts, requiredValidCaptures.
      destruct ((30 <=? captureAttempts st + 1)
                && (validCaptureCount st + 1 <? 20)) eqn:B.
      * apply andb_prop in B as [B _]. apply Z.leb_le in B.
        split; [lia | intros v; discriminate].
      * destruct (20 <=? validCaptureCount st + 1) eqn:S.
        -- apply Z.leb_le in S. split; [discriminate | lia].
        -- destruct (IH {| captureAttempts := captureAttempts st + 1;
                           validCaptureCount := validCaptureCount st + 1 |})
             as [I1 I2]; [cbn; lia |].
           cbn [captureAttempts validCaptureCount] in I1, I2.
           split; [intros H; specialize (I1 H); lia
                  | intros v H; specialize (I2 v H); lia].
    + rewrite (tick_invalid st c Hc). unfold maxAttempts.
      destruct (30 <=? captureAttempts st + 1) eqn:B.
      * apply Z.leb_le in B. split; [lia | intros v; discriminate].
      * destruct (IH {| captureAttempts := captureAttempts st + 1;
                        validCaptureCount := 0 |})
          as [I1 I2]; [cbn; lia |].
        cbn [captureAttempts validCaptureCount] in I1, I2.
        split; [intros H; specialize (I1 H); lia
               | intros v H; specialize (I2 v H); lia].
Qed.

(** X23. The loop never gives up early and never passes early. An
    attempt fails for lack of valid captures only once thirty samples
    have been taken, and the streak check is passed only once twenty
    have been. *)
Theorem outcomes_take_their_time (snaps : list Snapshot) :
  (sample start snaps = Some BudgetExhausted ->
   maxAttempts <= Z.of_nat (List.length snaps))
  /\ (forall v, sample start snaps = Some (StreakReached v) ->
        requiredValidCaptures <= Z.of_nat (List.length snaps)).
Proof.
  destruct (outcome_timing snaps start) as [H1 H2]; [cbn; lia |].
  cbn [start captureAttempts validCaptureCount] in H1, H2.
  split; [exact H1 | exact H2].
Qed.

(* ===================================================================== *)
(** * The final validation *)
(* ===================================================================== *)

Lemma find_filter {A : Type} (p : A -> bool) (l : list A) :
  find p l = match filter p l with [] => None | x :: _ => Some x end.
Proof.
  induction l as [| x l IH]; [reflexivity |].
  cbn. destruct (p x); [reflexivity | exact IH].
Qed.

(** X12. What a validated attempt guarantees. When the final
    validation lets an attempt through, the video element exists, is
    playing with enough data, its stream is active, the first live
    video track is enabled and not muted, the video has positive
    dimensions, drawing the frame did not throw, and the frame, when a
    2D context was available to read it, did not look covered. *)
Theorem validated_attempt_guarantees (c : Container) :
  finalValidation (signals c) c = Validated ->
  exists v stream track,
    video c = Some v
    /\ paused v = false /\ ended v = false /\ 2 <= readyState v
    /\ srcObject v = Some stream
    /\ active stream = true
    /\ find live (getVideoTracks stream) = Some track
    /\ live track = true
    /\ muted track = false
    /\ track_enabled track = true
    /\ getCapabilities_throws track = false
    /\ 0 < videoWidth v /\ 0 < videoHeight v
    /\ canvas v <> CanvasThrows
    /\ (forall data, canvas v = ImageData data -> looksCovered data = false).
Proof.
  unfold finalValidation, signals.
  destruct (video c) as [v |] eqn:Hv; [| discriminate].
  destruct (srcObject v) as [stream |] eqn:Hsrc;
    cbn [hasVideo isPlaying hasActiveStream hasVideoTracks];
    [| rewrite orb_true_r; discriminate].
  destruct (paused v) eqn:Hp; [discriminate |].
  destruct (ended v) eqn:He; [discriminate |].
  destruct (2 <=? readyState v) eqn:Hr; [| discriminate].
  destruct (active stream) eqn:Ha; [| discriminate].
  cbn [negb andb orb].
  destruct (filter live (getVideoTracks stream)) as [| track others] eqn:Hlive;
    [discriminate |].
  destruct (inspectTrack v track) eqn:Hins; [| discriminate].
  cbn [negb].
  destruct ((videoWidth v =? 0) || (videoHeight v =? 0)) eqn:Hzero; [discriminate |].
  unfold validateContent. rewrite Hsrc, find_filter, Hlive.
  destruct (muted track) eqn:Hm; [discriminate |].
  destruct (track_enabled track) eqn:Hen; [| discriminate].
  cbn [negb orb].
  assert (Hdims : (0 <? videoWidth v) && (0 <? videoHeight v) = true).
  { apply orb_false_elim in Hzero as [Hw Hh].
    unfold inspectTrack in Hins. rewrite Hw, Hh in Hins.
    cbn [negb andb] in Hins. rewrite !andb_true_r in Hins.
    destruct (getCapabilities_throws track); [discriminate |].
    destruct (if JS.truthy_number (settings_width track)
                  && JS.truthy_number (settings_height track)
              then JS.gt (settings_width track) 0 && JS.gt (settings_height track) 0
              else negb (muted track) && track_enabled track);
      [exact Hins | discriminate]. }
  assert (Hthrow : getCapabilities_throws track = false).
  { unfold inspectTrack in Hins.
    destruct (getCapabilities_throws track); [discriminate | reflexivity]. }
  assert (Htrack : live track = true).
  { assert (Hin : In track (filter live (getVideoTracks stream)))
      by (rewrite Hlive; left; reflexivity).
    apply filter_In in Hin. apply Hin. }
  apply andb_prop in Hdims as [Hw Hh].
  rewrite <- andb_assoc, Hw, Hh, andb_true_r.
  apply Z.ltb_lt in Hw, Hh. apply Z.leb_le in Hr.
  intros Hcanvas.
  exists v, stream, track.
  rewrite find_filter, Hlive.
  repeat (split; [solve [trivial] |]).
  destruct (canvas v) as [| | data]; cbn [contextAvailable] in Hcanvas.
  - split; [discriminate | intros data; discriminate].
  - discriminate.
  - split; [discriminate |].
    intros data' [= <-]. destruct (looksCovered data); [discriminate | reflexivity].
Qed.

(** X13. A muted or disabled track still counts toward the streak.
    When the first live track reports positive settings dimensions and
    the video plays an active stream with positive dimensions, the
    sample is valid whether or not the track is muted or enabled; the
    final validation is what rejects such a track, as not active. *)
Theorem muted_track_counts_as_valid
    (c : Container) (v : VideoElement) (stream : MediaStream)
    (track : Track) (others : list Track) (width height : Z) :
  video c = Some v ->
  paused v = false -> ended v = false -> 2 <= readyState v ->
  srcObject v = Some stream ->
  active stream = true ->
  filter live (getVideoTracks stream) = track :: others ->
  getCapabilities_throws track = false ->
  settings_width track = Some width -> 0 < width ->
  settings_height track = Some height -> 0 < height ->
  0 < videoWidth v -> 0 < videoHeight v ->
  isValidCapture (signals c) = true
  /\ (muted track = true \/ track_enabled track = false ->
      finalValidation (signals c) c
      = Rejected "Camera track is not active. Please ensure camera is uncovered and try again.").
Proof.
  intros Hv Hp He Hr Hsrc Ha Hlive Hthrow Hsw Hw Hsh Hh Hvw Hvh.
  assert (Hins : inspectTrack v track = true).
  { unfold inspectTrack. rewrite Hthrow, Hsw, Hsh. cbn [JS.truthy_number JS.gt].
    destruct (Z.eqb_spec width 0); [lia |].
    destruct (Z.eqb_spec height 0); [lia |].
    destruct (Z.eqb_spec (videoWidth v) 0); [lia |].
    destruct (Z.eqb_spec (videoHeight v) 0); [lia |].
    destruct (Z.ltb_spec 0 width); [| lia].
    destruct (Z.ltb_spec 0 height); [| lia].
    destruct (Z.ltb_spec 0 (videoWidth v)); [| lia].
    destruct (Z.ltb_spec 0 (videoHeight v)); [| lia].
    reflexivity. }
  assert (Hsig : signals c = {| hasVideo := true; isPlaying := true;
                                hasActiveStream := true; hasVideoTracks := true |}).
  { unfold signals. rewrite Hv, Hsrc, Hlive, Hins, Hp, He, Ha.
    destruct (Z.leb_spec 2 (readyState v)); [reflexivity | lia]. }
  rewrite Hsig. split; [reflexivity |].
  intros Hoff. unfold finalValidation. cbn [hasVideo isPlaying hasActiveStream hasVideoTracks negb orb].
  rewrite Hv.
  destruct (Z.eqb_spec (videoWidth v) 0); [lia |].
  destruct (Z.eqb_spec (videoHeight v) 0); [lia |].
  cbn [orb]. unfold validateContent. rewrite Hsrc, find_filter, Hlive.
  destruct Hoff as [-> | ->]; [reflexivity |].
  rewrite orb_true_r. reflexivity.
Qed.

(* ===================================================================== *)
(** * The content check: what it reads *)
(* ===================================================================== *)

Lemma bright_by_colour (ps qs : list (Z * Z * Z * Z)) :
  map colour ps = map colour qs -> countBright ps = countBright qs.
Proof.
  unfold countBright. revert qs.
  induction ps as [| p ps IH]; intros [| q qs] Heq; try discriminate;
    [reflexivity |].
  cbn [map] in Heq. injection Heq as Hpq Hrest.
  cbn [filter].
  assert (Hd : dark p = dark q).
  { destruct p as [[[r g] b] a], q as [[[r' g'] b'] a'].
    cbn in Hpq. injection Hpq as -> -> ->. reflexivity. }
  rewrite Hd. specialize (IH qs Hrest).
  destruct (negb (dark q)); cbn [List.length]; lia.
Qed.

(** X14. The content check reads the colour channels of the first
    2500 pixels and nothing else. Two frames that agree there get the
    same verdict, whatever their alpha channels, their sizes, and the
    pixels after the first 2500. *)
Theorem content_check_reads_prefix_colours
    (data data' : list Z) (pixelCount pixelCount' : nat) :
  List.length data = (4 * pixelCount)%nat ->
  List.length data' = (4 * pixelCount')%nat ->
  map colour (sampledPixels data) = map colour (sampledPixels data') ->
  looksCovered data = looksCovered data'.
Proof.
  intros Hlen Hlen' Hsame.
  assert (Hcount : List.length (sampledPixels data)
                   = List.length (sampledPixels data')).
  { rewrite <- (length_map colour (sampledPixels data)), Hsame.
    apply length_map. }
  destruct pixelCount as [| m].
  - (* an empty frame: the ratio is not a number *)
    destruct data; [| discriminate].
    destruct (sampleSize_pixels data' pixelCount' Hlen') as [Hs _].
    rewrite <- Hcount in Hs. cbn in Hs.
    unfold looksCovered. rewrite Hs. reflexivity.
  - destruct pixelCount' as [| m'].
    + destruct data'; [| discriminate].
      destruct (sampleSize_pixels data (S m) Hlen) as [Hs _].
      rewrite Hcount in Hs. cbn in Hs.
      unfold looksCovered. rewrite Hs. reflexivity.
    + pose proof (looksCovered_threshold data (S m) Hlen ltac:(lia)) as T.
      pose proof (looksCovered_threshold data' (S m') Hlen' ltac:(lia)) as T'.
      rewrite (bright_by_colour _ _ Hsame), Hcount in T.
      destruct (looksCovered data), (looksCovered data'); trivial.
      * symmetry. apply T'. apply T. reflexivity.
      * apply T. apply T'. reflexivity.
Qed.


(* ===================================================================== *)
(** * The widget hook *)
(* ===================================================================== *)

Lemma stop_clears (r : ActionID.Refs) :
  ActionID.instanceRef (ActionID.stop r) = None.
Proof.
  unfold ActionID.stop. destruct (ActionID.instanceRef r) as [i |] eqn:Hi;
    [| exact Hi].
  destruct (_ && _); reflexivity.
Qed.

(** X15. [stop] always releases the widget. Afterwards no instance is
    held, whatever the widget did when asked to stop; the session and
    user identifiers are kept; stopping again changes nothing. The
    widget is asked to stop before it is destroyed, and when stopping
    throws it is never destroyed. *)
Theorem stop_always_releases (r : ActionID.Refs) :
  ActionID.instanceRef (ActionID.stop r) = None
  /\ ActionID.getCsid (ActionID.stop r) = ActionID.getCsid r
  /\ ActionID.getUid (ActionID.stop r) = ActionID.getUid r
  /\ ActionID.stop (ActionID.stop r) = ActionID.stop r
  /\ (forall i,
        ActionID.instanceRef r = Some i ->
        exists made,
          ActionID.calls (ActionID.stop r) = ActionID.calls r ++ made
          /\ (made = [] \/ made = [ActionID.StopBiometric]
              \/ made = [ActionID.Destroy]
              \/ made = [ActionID.StopBiometric; ActionID.Destroy])
          /\ (ActionID.has_stopBiometric i = true ->
              ActionID.stopBiometric_throws i = true ->
              made = [ActionID.StopBiometric])
          /\ (In ActionID.Destroy made -> ActionID.has_destroy i = true)).
Proof.
  unfold ActionID.stop, ActionID.getCsid, ActionID.getUid.
  destruct r as [[i |] c u l]; cbn.
  - destruct (ActionID.has_stopBiometric i) eqn:Hs,
      (ActionID.stopBiometric_throws i) eqn:Ht,
      (ActionID.has_destroy i) eqn:Hd; cbn;
      repeat split; intros i' [= <-]; rewrite ?Hs, ?Ht, ?Hd;
      first [ exists [ActionID.StopBiometric; ActionID.Destroy];
              rewrite <- ?app_assoc; cbn;
              split; [reflexivity |]; intuition (try discriminate; congruence)
            | exists [ActionID.StopBiometric];
              split; [reflexivity |]; cbn; intuition (try discriminate; congruence)
            | exists [ActionID.Destroy];
              split; [reflexivity |]; cbn; intuition (try discriminate; congruence)
            | exists [];
              rewrite ?app_nil_r;
              split; [reflexivity |]; cbn; intuition (try discriminate; congruence) ].
  - repeat split. intros i [=].
Qed.

Lemma configured_initialize (page : ActionID.Page) (uid : string)
    (r : ActionID.Refs) :
  ActionID.configured r ->
  ActionID.configured (fst (ActionID.initialize page uid r)).
Proof.
  intros Hr. unfold ActionID.initialize.
  destruct (ActionID.instanceRef r) as [i |] eqn:Hi; [exact Hr |].
  destruct (ActionID.Ironvest page) as [construct |]; [| exact Hr].
  cbn zeta.
  destruct (construct _) as [instance |];
    [| intros Hsome; contradiction Hsome; reflexivity].
  destruct (ActionID.setCsid_throws instance);
    [intros Hsome; contradiction Hsome; reflexivity |].
  destruct (ActionID.setUid_throws instance);
    [intros Hsome; contradiction Hsome; reflexivity |].
  intros _. cbn.
  eexists (ActionID.calls r), _, []. cbn.
  rewrite <- !app_assoc. cbn. repeat split.
Qed.

Lemma configured_start (containerId : string) (options : ActionID.Options)
    (r : ActionID.Refs) :
  ActionID.configured r ->
  ActionID.configured (fst (ActionID.startBiometric containerId options r)).
Proof.
  intros Hr. unfold ActionID.startBiometric.
  destruct (ActionID.instanceRef r) as [i |] eqn:Hi; [| exact Hr].
  cbn [fst]. intros _.
  destruct Hr as [before [config [started [Hcalls [Hc [Hu Hs]]]]]];
    [rewrite Hi; discriminate |].
  exists before, config. eexists.
  split; [cbn; rewrite Hcalls, <- !app_assoc; cbn; reflexivity |].
  repeat split; trivial.
  rewrite forallb_app, Hs. reflexivity.
Qed.

Lemma configured_use (u : ActionID.Use) (r : ActionID.Refs) :
  ActionID.configured r -> ActionID.configured (ActionID.use u r).
Proof.
  destruct u as [page uid | containerId options |]; cbn [ActionID.use].
  - apply configured_initialize.
  - apply configured_start.
  - intros _ Hsome. contradiction Hsome.
    unfold ActionID.stop. destruct (ActionID.instanceRef r) as [i |] eqn:Hi;
      [| exact Hi].
    destruct (_ && _); reflexivity.
Qed.

(** X16. The session identifier the hook reports is the one the widget
    was given. After any sequence of uses of the hook since it was
    mounted, whenever an instance is held, that instance was the last
    one built, it was built and set up with the session and user
    identifiers that [getCsid] and [getUid] return, and since then it
    has only been asked to start sessions. *)
Theorem widget_holds_reported_session (us : list ActionID.Use) :
  ActionID.configured (ActionID.uses us ActionID.mounted).
Proof.
  assert (G : forall r, ActionID.configured r ->
                        ActionID.configured (ActionID.uses us r)).
  { unfold ActionID.uses. induction us as [| u us IH]; intros r Hr; cbn [fold_left];
      [exact Hr |].
    apply IH. now apply configured_use. }
  apply G. intros Hsome. contradiction Hsome. reflexivity.
Qed.

(** X17. The outcomes of [initialize]. With an instance held it does
    nothing, so a second initialization after a successful one changes
    nothing. Without the widget script it throws and changes nothing.
    Otherwise it replaces the session identifier with a fresh one and
    records the user, even when building or setting up the widget then
    throws; it holds an instance afterwards exactly when it returns
    normally. After [stop], starting a session throws without reaching
    the widget. *)
Theorem initialize_outcomes
    (page : ActionID.Page) (uid : string) (r : ActionID.Refs) :
  let after := ActionID.initialize page uid r in
  (ActionID.instanceRef r <> None -> after = (r, ActionID.Normal))
  /\ (ActionID.instanceRef r = None -> ActionID.Ironvest page = None ->
      after = (r, ActionID.Throws))
  /\ (ActionID.instanceRef r = None -> ActionID.Ironvest page <> None ->
      ActionID.getCsid (fst after) = ActionID.randomUUID page
      /\ ActionID.getUid (fst after) = uid)
  /\ (snd after = ActionID.Throws -> ActionID.instanceRef (fst after) = None)
  /\ (snd after = ActionID.Normal ->
      ActionID.instanceRef (fst after) <> None
      /\ forall page' uid',
           ActionID.initialize page' uid' (fst after)
           = (fst after, ActionID.Normal))
  /\ (forall containerId options,
        ActionID.startBiometric containerId options (ActionID.stop r)
        = (ActionID.stop r, ActionID.Throws)).
Proof.
  cbn zeta. unfold ActionID.initialize, ActionID.getCsid, ActionID.getUid.
  destruct (ActionID.instanceRef r) as [i |] eqn:Hi;
    [| destruct (ActionID.Ironvest page) as [construct |] eqn:Hsdk;
       [cbn zeta;
        destruct (construct _) as [instance |];
        [destruct (ActionID.setCsid_throws instance);
         [| destruct (ActionID.setUid_throws instance)] |] |]];
    repeat split; cbn [fst snd]; intros;
    try discriminate; try reflexivity; try congruence;
    try (unfold ActionID.startBiometric; rewrite (stop_clears r); reflexivity);
    try (unfold ActionID.initialize; cbn; rewrite ?Hi; reflexivity).
Qed.

(* ===================================================================== *)
(** * The browser session *)
(* ===================================================================== *)

Section Session.

Variable stringify : PublicUser -> string.
Variable parse : string -> option PublicUser.

Lemma truthy_nonempty (s : string) :
  s <> ""%string -> JS.truthy_string (Some s) = true.
Proof.
  intros Hs. cbn. destruct (String.eqb_spec s ""); [contradiction | reflexivity].
Qed.

(** X18. Storing and reading back a session. After a login or
    registration answer that carries a token, the page counts as
    authenticated, [getCurrentUser] returns the user of the answer,
    requests carry [Bearer] and the token, and no other key of the
    storage has changed; an answer with an empty token stores nothing.
    This needs [JSON.parse] to read back what [JSON.stringify] wrote,
    which is never the empty string. *)
Theorem session_round_trip
    (token : string) (user : PublicUser) (ls : Browser.Storage) :
  token <> ""%string ->
  stringify user <> ""%string ->
  parse (stringify user) = Some user ->
  let ls' := Browser.storeSession stringify token user ls in
  Browser.isAuthenticated ls' = true
  /\ Browser.getCurrentUser parse ls' = Some (Some user)
  /\ Browser.authorization ls' = Some ("Bearer " ++ token)%string
  /\ (forall k, k <> "token"%string -> k <> "user"%string ->
        Browser.getItem k ls' = Browser.getItem k ls)
  /\ Browser.storeSession stringify "" user ls = ls.
Proof.
  intros Ht Hs Hparse ls'. subst ls'.
  unfold Browser.storeSession. rewrite (truthy_nonempty token Ht).
  unfold Browser.isAuthenticated, Browser.getCurrentUser, Browser.authorization,
    Browser.getItem, Browser.setItem.
  cbn [String.eqb Ascii.eqb Bool.eqb andb JS.to_string].
  rewrite (truthy_nonempty token Ht), (truthy_nonempty _ Hs), Hparse.
  repeat split.
  intros k Hk Hu.
  destruct (String.eqb_spec k "user"); [contradiction |].
  destruct (String.eqb_spec k "token"); [contradiction | reflexivity].
Qed.

(** X19. How a session ends. After [logout] the page is not
    authenticated, has no current user and sends no [Authorization]
    header. An error answer with status 401 does the same and sends the
    page to '/login', unless the request went to a verification or
    enrollment-completion address; those, and every other status, leave
    the storage as it was. Of the addresses the service uses, a 401 on
    '/auth/login', '/auth/register' or '/auth/profile' ends the
    session, a 401 on '/auth/verify-biometric' or
    '/auth/enroll/complete' does not. *)
Theorem session_ends (ls : Browser.Storage) :
  (Browser.isAuthenticated (Browser.logout ls) = false
   /\ Browser.getCurrentUser parse (Browser.logout ls) = Some None
   /\ Browser.authorization (Browser.logout ls) = None)
  /\ (forall url,
        Browser.includes "/verify-biometric" url = false ->
        Browser.includes "/enroll/complete" url = false ->
        Browser.onResponseError (Some url) (Some 401) ls
        = (Browser.logout ls, Some "/login"%string))
  /\ (forall url status,
        Browser.includes "/verify-biometric" url = true
        \/ Browser.includes "/enroll/complete" url = true
        \/ status <> Some 401 ->
        Browser.onResponseError (Some url) status ls = (ls, None))
  /\ (forall status,
        Browser.onResponseError None status ls
        = Browser.onResponseError (Some ""%string) status ls)
  /\ (forall url,
        In url ["/auth/login"; "/auth/register"; "/auth/profile"]%string ->
        Browser.onResponseError (Some url) (Some 401) ls
        = (Browser.logout ls, Some "/login"%string))
  /\ (forall url,
        In url ["/auth/verify-biometric"; "/auth/enroll/complete"]%string ->
        Browser.onResponseError (Some url) (Some 401) ls = (ls, None)).
Proof.
  assert (Url : forall url,
             (if JS.truthy_string (Some url) then JS.to_string (Some url) else "")
             = url).
  { intros url. cbn. destruct (String.eqb_spec url ""); [now subst | reflexivity]. }
  split; [repeat split |].
  split.
  { intros url Hv He. unfold Browser.onResponseError. rewrite Url, Hv, He.
    reflexivity. }
  split.
  { intros url status H. unfold Browser.onResponseError. rewrite Url.
    destruct H as [-> | [-> | Hs]]; rewrite ?orb_true_r, ?andb_false_r;
      try reflexivity.
    destruct status as [[| [p|p|] |] |]; try reflexivity.
    repeat (destruct p as [p|p|]; try reflexivity).
    contradiction Hs. reflexivity. }
  split; [reflexivity |].
  split; intros url Hin; cbn in Hin;
    repeat (destruct Hin as [<- | Hin]; [reflexivity |]); contradiction.
Qed.

(** X20. Noting an enrollment in the browser. When the server answers
    [enrolled: true] and a user is stored, the stored user becomes the
    same user marked enrolled, the token stays, and noting it a second
    time stores the same user again; when the answer is not
    [enrolled: true], or no user is stored, the storage is left as it
    was. *)
Theorem noteEnrollment_marks_stored_user
    (ls : Browser.Storage) (text : string) (user : PublicUser) :
  let marked := {| pu_id := pu_id user; pu_email := pu_email user;
                   pu_enrolled := true |} in
  Browser.getItem "user" ls = Some text ->
  text <> ""%string ->
  parse text = Some user ->
  stringify marked <> ""%string ->
  parse (stringify marked) = Some marked ->
  let ls' := Browser.setItem "user" (stringify marked) ls in
  Browser.noteEnrollment stringify parse true ls = Some ls'
  /\ Browser.getCurrentUser parse ls' = Some (Some marked)
  /\ Browser.getItem "token" ls' = Browser.getItem "token" ls
  /\ (exists ls'', Browser.noteEnrollment stringify parse true ls' = Some ls''
                   /\ forall k, ls'' k = ls' k)
  /\ Browser.noteEnrollment stringify parse false ls = Some ls
  /\ (forall other, Browser.getItem "user" other = None ->
        Browser.noteEnrollment stringify parse true other = Some other).
Proof.
  intros marked Hitem Htext Hparse Hs Hround ls'.
  assert (Hget : Browser.getItem "user" ls' = Some (stringify marked)).
  { unfold ls', Browser.getItem, Browser.setItem. reflexivity. }
  split.
  { unfold Browser.noteEnrollment. rewrite Hitem, (truthy_nonempty text Htext).
    cbn [JS.to_string]. rewrite Hparse. reflexivity. }
  split.
  { unfold Browser.getCurrentUser. rewrite Hget, (truthy_nonempty _ Hs).
    cbn [JS.to_string]. rewrite Hround. reflexivity. }
  split; [reflexivity |].
  split.
  { unfold Browser.noteEnrollment. rewrite Hget, (truthy_nonempty _ Hs).
    cbn [JS.to_string]. rewrite Hround. eexists. split; [reflexivity |].
    intros k. unfold ls', Browser.setItem. cbn [pu_id pu_email marked].
    destruct (String.eqb k "user"); reflexivity. }
  split; [reflexivity |].
  intros other Hnone. unfold Browser.noteEnrollment. rewrite Hnone. reflexivity.
Qed.

End Session.

(* ===================================================================== *)
(** * The further properties on concrete data *)
(* ===================================================================== *)

Lemma lowerAscii_idempotent (c : ascii) :
  Sample.lowerAscii (Sample.lowerAscii c) = Sample.lowerAscii c.
Proof. destruct c as [[] [] [] [] [] [] [] []]; reflexivity. Qed.

Lemma sample_toLowerCase_idempotent (s : string) :
  Sample.toLowerCase (Sample.toLowerCase s) = Sample.toLowerCase s.
Proof.
  induction s as [| c s IH]; [reflexivity |].
  cbn. now rewrite lowerAscii_idempotent, IH.
Qed.


Lemma create_rejects_known_email_witness :
  User.create Sample.toLowerCase Sample.env "ALICE@example.com" "$2a$hash"
    {| users := [Sample.aliceRow true]; sent := None |}
  = ({| users := [Sample.aliceRow true]; sent := None |}, Thrown).
Proof.
  apply (create_rejects_known_email Sample.toLowerCase Sample.env
           "ALICE@example.com" "$2a$hash" [Sample.aliceRow true]
           (Sample.alice true)).
  reflexivity.
Defined.

Lemma markEnrolled_returns_account_witness :
  User.markEnrolled Sample.later (id (Sample.alice false))
    {| users := [Sample.aliceRow false]; sent := None |}
  = ({| users := Sql.updated Sample.later true (id (Sample.alice false))
                   [Sample.aliceRow false];
        sent := None |},
     Val (Some (Sample.alice true)))
  /\ accountById (Sql.updated Sample.later true (id (Sample.alice false))
                    [Sample.aliceRow false])
       (id (Sample.alice false))
     = Some (Sample.alice true).
Proof.
  apply (markEnrolled_returns_account Sample.later (id (Sample.alice false))
           [Sample.aliceRow false] (Sample.alice false)).
  reflexivity.
Defined.

Lemma unique_keys_preserved_witness :
  uniqueKeys
    (serve_all Sample.toLowerCase Sample.bcrypt_hash Sample.bcrypt_compare
       Sample.jwt_sign Sample.JWT_SECRET
       [ (Sample.env,
          PostRegister {| body := {| reg_email := Some "Bob@Example.com";
                                     reg_password := Some "hunter22" |};
                          user := None |});
         (Sample.env,
          PostRegister {| body := {| reg_email := Some "carol@example.com";
                                     reg_password := Some "hunter22" |};
                          user := None |}) ]
       [Sample.aliceRow false]).
Proof.
  apply (unique_keys_preserved Sample.toLowerCase Sample.bcrypt_hash
           Sample.bcrypt_compare Sample.jwt_sign Sample.JWT_SECRET
           _ [Sample.aliceRow false]).
  unfold uniqueKeys. cbn [map].
  split; (apply NoDup_cons; [cbn; tauto | apply NoDup_nil]).
Defined.

Lemma accounts_never_deleted_witness :
  exists u',
    accountById
      (serve_all Sample.toLowerCase Sample.bcrypt_hash Sample.bcrypt_compare
         Sample.jwt_sign Sample.JWT_SECRET
         [ (Sample.later,
            PostEnrollComplete {| body := {| enroll_csid := Some Sample.uuid |};
                                  user := Some (Sample.alice false) |});
           (Sample.env,
            PostRegister {| body := {| reg_email := Some "alice@example.com";
                                       reg_password := Some "other" |};
                            user := None |}) ]
         [Sample.aliceRow false])
      (id (Sample.alice false)) = Some u'
    /\ sameIdentity (Sample.alice false) u'
    /\ (enrolled (Sample.alice false) = true -> enrolled u' = true).
Proof.
  apply (accounts_never_deleted Sample.toLowerCase Sample.bcrypt_hash
           Sample.bcrypt_compare Sample.jwt_sign Sample.JWT_SECRET
           _ [Sample.aliceRow false]).
  reflexivity.
Defined.

Lemma stored_emails_are_lowercased_witness :
  lowercased Sample.toLowerCase
    (serve_all Sample.toLowerCase Sample.bcrypt_hash Sample.bcrypt_compare
       Sample.jwt_sign Sample.JWT_SECRET
       [ (Sample.env,
          PostRegister {| body := {| reg_email := Some "Bob@Example.COM";
                                     reg_password := Some "hunter22" |};
                          user := None |}) ]
       []).
Proof.
  apply (stored_emails_are_lowercased Sample.toLowerCase Sample.bcrypt_hash
           Sample.bcrypt_compare Sample.jwt_sign Sample.JWT_SECRET
           [_]).
  exact sample_toLowerCase_idempotent.
Defined.



Lemma every_request_is_answered_witness :
  let r := PostRegister {| body := {| reg_email := Some "Bob@Example.com";
                                      reg_password := Some "hunter22" |};
                           user := None |} in
  let db := [Sample.aliceRow false] in
  fitsColumns Sample.toLowerCase Sample.bcrypt_hash Sample.env r
  /\ exists resp,
       snd (serve (route Sample.toLowerCase Sample.bcrypt_hash
                     Sample.bcrypt_compare Sample.jwt_sign Sample.JWT_SECRET
                     Sample.env r) db) = Some resp
       /\ In (status resp) [200; 201; 400; 401; 500].
Proof.
  intros r db.
  assert (F : fitsColumns Sample.toLowerCase Sample.bcrypt_hash Sample.env r)
    by (split; reflexivity).
  split; [exact F |].
  destruct (every_request_is_answered Sample.toLowerCase Sample.bcrypt_hash
              Sample.bcrypt_compare Sample.jwt_sign Sample.JWT_SECRET
              Sample.env r db F) as [resp [H1 [H2 _]]].
  exists resp. split; assumption.
Defined.

Lemma enroll_then_verify_witness :
  let db' := fst (serve (completeEnrollment Sample.later
                           {| body := {| enroll_csid := Some "any-session" |};
                              user := Some (Sample.alice false) |})
                    [Sample.aliceRow false]) in
  exists u',
    accountById db' (id (Sample.alice false)) = Some u'
    /\ sameIdentity (Sample.alice false) u'
    /\ enrolled u' = true
    /\ serve (verifyBiometric
                {| body := {| csid := Some Sample.uuid; actionID := Some "login";
                              videoValidated := Some true |};
                   user := Some u' |}) db'
       = (db', Some (Policy.response Policy.Accept))
    /\ (enrolled (Sample.alice false) = false ->
        serve (verifyBiometric
                 {| body := {| csid := Some Sample.uuid; actionID := Some "login";
                               videoValidated := Some true |};
                    user := Some (Sample.alice false) |}) db'
        = (db', Some (Policy.response Policy.MustEnrollFirst))).
Proof.
  apply (enroll_then_verify Sample.later (Sample.alice false)
           {| enroll_csid := Some "any-session" |}
           {| csid := Some Sample.uuid; actionID := Some "login";
              videoValidated := Some true |}
           [Sample.aliceRow false]); reflexivity.
Defined.

Lemma enroll_then_login_witness :
  let db' := fst (serve (completeEnrollment Sample.later
                           {| body := {| enroll_csid := Some Sample.uuid |};
                              user := Some (Sample.alice false) |})
                    [Sample.aliceRow false]) in
  serve (login Sample.toLowerCase Sample.bcrypt_compare Sample.jwt_sign
           Sample.JWT_SECRET Sample.later
           {| body := {| login_email := Some "Alice@example.com";
                         login_password := Some "password123" |};
              user := None |}) db'
  = (db', Some {| status := 200;
                  json := AuthJson "Login successful" (public (Sample.alice true))
                            (sign_token Sample.jwt_sign Sample.JWT_SECRET
                               Sample.later (Sample.alice true)) |})
  /\ pu_enrolled (public (Sample.alice true)) = true.
Proof.
  apply (enroll_then_login Sample.toLowerCase Sample.bcrypt_compare
           Sample.jwt_sign Sample.JWT_SECRET Sample.later Sample.later
           (Sample.alice false) {| enroll_csid := Some Sample.uuid |}
           {| body := {| login_email := Some "Alice@example.com";
                         login_password := Some "password123" |};
              user := None |}
           [Sample.aliceRow false]); reflexivity.
Defined.

Lemma validated_attempt_guarantees_witness :
  exists v stream track,
    video (Sample.camera 2 2 Cases.greyFrame) = Some v
    /\ paused v = false /\ ended v = false /\ 2 <= readyState v
    /\ srcObject v = Some stream
    /\ active stream = true
    /\ find live (getVideoTracks stream) = Some track
    /\ live track = true
    /\ muted track = false
    /\ track_enabled track = true
    /\ getCapabilities_throws track = false
    /\ 0 < videoWidth v /\ 0 < videoHeight v
    /\ canvas v <> CanvasThrows
    /\ (forall data, canvas v = ImageData data -> looksCovered data = false).
Proof.
  apply (validated_attempt_guarantees (Sample.camera 2 2 Cases.greyFrame)).
  vm_compute. reflexivity.
Defined.

Lemma muted_track_counts_as_valid_witness :
  isValidCapture (signals Cases.mutedCamera) = true
  /\ finalValidation (signals Cases.mutedCamera) Cases.mutedCamera
     = Rejected "Camera track is not active. Please ensure camera is uncovered and try again.".
Proof.
  destruct (muted_track_counts_as_valid Cases.mutedCamera Cases.mutedVideo
              Cases.mutedStream Cases.mutedTrack [] 640 480)
    as [Hvalid Hrejected]; try reflexivity; try (cbn; lia).
  split; [exact Hvalid |]. apply Hrejected. left; reflexivity.
Defined.

Lemma content_check_reads_prefix_colours_witness :
  looksCovered Cases.darkOpaque = looksCovered Cases.darkTranslucent.
Proof.
  apply (content_check_reads_prefix_colours Cases.darkOpaque Cases.darkTranslucent
           4 4); reflexivity.
Defined.

Lemma session_round_trip_witness :
  let ls' := Browser.storeSession Cases.stringify Cases.token
               (Cases.storedAlice true) Cases.otherKey in
  Browser.isAuthenticated ls' = true
  /\ Browser.getCurrentUser Cases.parse ls' = Some (Some (Cases.storedAlice true))
  /\ Browser.authorization ls' = Some ("Bearer " ++ Cases.token)%string
  /\ (forall k, k <> "token"%string -> k <> "user"%string ->
        Browser.getItem k ls' = Browser.getItem k Cases.otherKey)
  /\ Browser.storeSession Cases.stringify "" (Cases.storedAlice true) Cases.otherKey
     = Cases.otherKey.
Proof.
  apply (session_round_trip Cases.stringify Cases.parse Cases.token
           (Cases.storedAlice true) Cases.otherKey);
    try discriminate; reflexivity.
Defined.

Lemma noteEnrollment_marks_stored_user_witness :
  let ls := Browser.storeSession Cases.stringify Cases.token
              (Cases.storedAlice false) Cases.otherKey in
  Browser.getCurrentUser Cases.parse
    (Browser.setItem "user" (Cases.stringify (Cases.storedAlice true)) ls)
  = Some (Some (Cases.storedAlice true)).
Proof.
  cbn zeta.
  refine (proj1 (proj2
            (noteEnrollment_marks_stored_user Cases.stringify Cases.parse
               (Browser.storeSession Cases.stringify Cases.token
                  (Cases.storedAlice false) Cases.otherKey)
               (Cases.stringify (Cases.storedAlice false))
               (Cases.storedAlice false) _ _ _ _ _)));
    try discriminate; reflexivity.
Defined.

Lemma widget_holds_reported_session_witness :
  let r := ActionID.uses
             [ ActionID.Initialize Cases.page "alice";
               ActionID.StartBiometric "camera-container"
                 {| ActionID.size := None; ActionID.opacity := Some 1%Q;
                    ActionID.useVirtualAvatar := None; ActionID.frequency := None;
                    ActionID.actionID := Some "login"%string |} ]
             ActionID.mounted in
  exists before config started,
    ActionID.calls r
    = before ++ [ActionID.New config; ActionID.SetCsid (ActionID.getCsid r);
                 ActionID.SetUid (ActionID.getUid r)] ++ started
    /\ ActionID.csid config = ActionID.getCsid r
    /\ ActionID.uid config = ActionID.getUid r
    /\ forallb ActionID.isStart started = true.
Proof.
  cbn zeta.
  apply (widget_holds_reported_session
           [ ActionID.Initialize Cases.page "alice";
             ActionID.StartBiometric "camera-container"
               {| ActionID.size := None; ActionID.opacity := Some 1%Q;
                  ActionID.useVirtualAvatar := None; ActionID.frequency := None;
                  ActionID.actionID := Some "login"%string |} ]).
  discriminate.
Defined.
